(** * ImperialStaffSearch: the profile extractor and the search engine

    A shallow embedding of [src/Profile.py] and [src/SearchEngine.py].

    Conventions of the embedding:
    - a Python [str] is a [string]; the case mapping, the white space test
      and the word-character test are those of Python on ASCII text, every
      other character is left alone;
    - a Python [int] is a [Z];
    - a raised exception is the [Raise] case of [result]; code that touches
      the shared vectorizer or the language-model endpoint passes a [world]
      along;
    - scikit-learn's floating-point stages (the idf weights, the row
      normalisation, the cosine product), its stop-word table and the
      comparison of two [float64] are parameters of the development (the
      classes [Float64] and [Sklearn]); the integer stages (tokens,
      vocabulary, counts, index sort, slicing) are written out. *)

From Stdlib Require Import List String Ascii Bool Arith ZArith NArith Lia.
From Stdlib Require Import Permutation Sorted PrimFloat HexadecimalString.
From Equations Require Import Equations.
Import ListNotations.

Set Implicit Arguments.
Set Default Goal Selector "!".

Local Open Scope string_scope.
Local Open Scope list_scope.

(** ** Python values shared by both files *)

Inductive exn : Type :=
| ValueError       (* sklearn: empty vocabulary *)
| NotFittedError   (* sklearn: transform before fit *)
| IndexError       (* list index out of range *)
| KeyError         (* missing dict key *)
| AttributeError.  (* attribute of None *)

Inductive result (A : Type) : Type :=
| Ok (a : A)
| Raise (e : exn).
Arguments Ok {A} a.
Arguments Raise {A} e.

Definition result_bind {A B} (r : result A) (k : A -> result B) : result B :=
  match r with
  | Ok a => k a
  | Raise e => Raise e
  end.

(** ** Python string operations *)

Module PyStr.

Definition code (c : ascii) : nat := nat_of_ascii c.

(** [str.lower] on one character: only [A]..[Z] change. *)
Definition lower_char (c : ascii) : ascii :=
  if ((65 <=? code c) && (code c <=? 90))%nat then ascii_of_nat (code c + 32) else c.

Fixpoint lower (s : string) : string :=
  match s with
  | EmptyString => EmptyString
  | String c t => String (lower_char c) (lower t)
  end.

(** [c.isspace()]: tab, line feed, vertical tab, form feed, carriage
    return, the four separators 0x1c..0x1f and the space. *)
Definition is_space (c : ascii) : bool :=
  (((9 <=? code c) && (code c <=? 13))
   || ((28 <=? code c) && (code c <=? 32)))%nat.

Fixpoint lstrip (s : string) : string :=
  match s with
  | EmptyString => EmptyString
  | String c t => if is_space c then lstrip t else s
  end.

(** [rstrip] as a right fold: a space is dropped when nothing but
    spaces follows it. *)
Fixpoint rstrip (s : string) : string :=
  match s with
  | EmptyString => EmptyString
  | String c t =>
      match rstrip t with
      | EmptyString => if is_space c then EmptyString else String c EmptyString
      | t' => String c t'
      end
  end.

(** [s.strip()] *)
Definition strip (s : string) : string := rstrip (lstrip s).

(** [s.startswith(p)] *)
Fixpoint startswith (p s : string) : bool :=
  match p, s with
  | EmptyString, _ => true
  | String a p', String b s' => Ascii.eqb a b && startswith p' s'
  | String _ _, EmptyString => false
  end.

(** [needle in hay] *)
Fixpoint contains (needle hay : string) : bool :=
  startswith needle hay ||
  match hay with
  | EmptyString => false
  | String _ t => contains needle t
  end.

(** [s.split(sep)] for a one-character separator: always at least one
    piece. *)
Fixpoint split (sep : ascii) (s : string) : list string :=
  match s with
  | EmptyString => [EmptyString]
  | String c t =>
      if Ascii.eqb c sep then EmptyString :: split sep t
      else match split sep t with
           | [] => [String c EmptyString]
           | piece :: rest => String c piece :: rest
           end
  end.

(** [s.replace(old, new)] for a non-empty [old]: occurrences are found
    left to right and do not overlap. [skip] counts the characters of a
    match that are still to be dropped. *)
Fixpoint replace_from (old new : string) (skip : nat) (s : string) : string :=
  match s with
  | EmptyString => EmptyString
  | String c t =>
      match skip with
      | S k => replace_from old new k t
      | O =>
          if startswith old s
          then new ++ replace_from old new (String.length old - 1) t
          else String c (replace_from old new 0 t)
      end
  end.

Definition replace (old new s : string) : string := replace_from old new 0 s.

(** [hex(n)] without its [0x]: lower-case digits, no leading zero. *)
Definition hex_digits (n : N) : string :=
  HexadecimalString.NilZero.string_of_uint (N.to_hex_uint n).

End PyStr.

(** ** The parsed document ([bs4.BeautifulSoup]) *)

Module Soup.

(** A parse tree: text nodes and tags; [attrs] is the tag's attribute
    dictionary, read with the first binding of a key. The
    [BeautifulSoup] object itself is the root tag. *)
#[warnings="-register-all"]
Inductive node : Type :=
| NavigableString (s : string)
| Tag (name : string) (attrs : list (string * string)) (contents : list node).

(** [tag.descendants]: every node below the tag, in document order. *)
Fixpoint descendants (n : node) : list node :=
  match n with
  | NavigableString _ => []
  | Tag _ _ cs => flat_map (fun c => c :: descendants c) cs
  end.

Fixpoint lookup (key : string) (attrs : list (string * string)) : option string :=
  match attrs with
  | [] => None
  | (k, v) :: rest => if String.eqb k key then Some v else lookup key rest
  end.

(** [tag.get(key)] *)
Definition get (key : string) (n : node) : option string :=
  match n with
  | NavigableString _ => None
  | Tag _ attrs _ => lookup key attrs
  end.

(** [tag.text]: the text nodes below the tag, concatenated. *)
Fixpoint text (n : node) : string :=
  match n with
  | NavigableString s => s
  | Tag _ _ cs => fold_right (fun c acc => (text c ++ acc)%string) "" cs
  end.

(** The CSS selector [a[href^="mailto:"]]. *)
Definition is_mail_link (n : node) : bool :=
  match n with
  | NavigableString _ => false
  | Tag name attrs _ =>
      String.eqb name "a" &&
      match lookup "href" attrs with
      | Some h => PyStr.startswith "mailto:" h
      | None => false
      end
  end.

(** The pieces of a multi-valued attribute such as [class]: the maximal
    runs of characters that are not white space. *)
Fixpoint words_from (s cur : string) : list string :=
  let emit := match cur with EmptyString => [] | _ => [cur] end in
  match s with
  | EmptyString => emit
  | String c t =>
      if PyStr.is_space c then emit ++ words_from t ""
      else words_from t (cur ++ String c "")
  end.

(** The filter [class_=c] of [find]. *)
Definition has_class (c : string) (n : node) : bool :=
  match n with
  | NavigableString _ => false
  | Tag _ attrs _ =>
      match lookup "class" attrs with
      | Some v => existsb (String.eqb c) (words_from v "")
      | None => false
      end
  end.

(** [soup.select_one(sel)] and [soup.find(...)]: the first match in
    document order, [None] when there is none. *)
Definition select_one (sel : node -> bool) (soup : node) : option node :=
  find sel (descendants soup).

End Soup.

(** ** [src/Profile.py] *)

(** A [Profile] object: its [url] attribute, the seven entries of its
    [__data] dictionary, and [id_], the identity [id(self)] that the
    interpreter prints in the default [repr]. *)
Record Profile : Type := mkProfile {
  url : string;
  name : string;
  department : string;
  contact : string;
  location : string;
  links : list string;
  summary : string;
  publications : list string;
  id_ : N
}.

(** Dereferencing the result of a search that may be [None]. *)
Definition deref {A} (o : option A) : result A :=
  match o with
  | Some a => Ok a
  | None => Raise AttributeError
  end.

(** The first strategy of the contact block of [__get_main]:
    [soup.select_one('a[href^="mailto:"]').get('href')
       .replace('mailto:', '').strip()]. *)
Definition contact_from_mail_link (soup : Soup.node) : result string :=
  result_bind (deref (Soup.select_one Soup.is_mail_link soup)) (fun a =>
  result_bind (deref (Soup.get "href" a)) (fun href =>
  Ok (PyStr.strip (PyStr.replace "mailto:" "" href)))).

(** The fallback: [soup.find(class_='contact-email').text.strip()]. *)
Definition contact_from_container (soup : Soup.node) : result string :=
  result_bind (deref (Soup.select_one (Soup.has_class "contact-email") soup))
    (fun t => Ok (PyStr.strip (Soup.text t))).

(** The contact block of [__get_main]: the nested [try]/[except] around the
    two strategies; ['N/A'] is the value the dictionary starts with. *)
Definition get_main_contact (soup : Soup.node) : string :=
  match contact_from_mail_link soup with
  | Ok c => c
  | Raise _ =>
      match contact_from_container soup with
      | Ok c => c
      | Raise _ => "N/A"
      end
  end.

(** A mail-link's target "with the mail-scheme prefix removed", in the
    words of the specification: the characters after the leading
    [mailto:]. *)
Definition without_mail_scheme (href : string) : string :=
  String.substring 7 (String.length href - 7) href.

(** [str(profile)]: the class defines neither [__str__] nor [__repr__], so
    this is [object.__repr__], which prints the qualified class name and the
    object's address. *)
Definition Profile_str (p : Profile) : string :=
  "<src.Profile.Profile object at 0x" ++ PyStr.hex_digits (id_ p) ++ ">".

(** [profile.get_data('url')]: [get_data] reads [self.__data[key]], and
    [__get_main] never stores a ['url'] key. *)
Definition Profile_get_data_url (p : Profile) : result string :=
  Raise KeyError.

(** The record's flattened text in the words of the specification, "all
    fields concatenated": url, name, department, contact, location, links,
    summary, publications. It is what the specification compares
    [Profile_str] with; the code never computes it. *)
Definition spec_flattened_text (p : Profile) : string :=
  url p ++ name p ++ department p ++ contact p ++ location p
  ++ String.concat "" (links p) ++ summary p
  ++ String.concat "" (publications p).

(** ** Sorting and slicing, as the interpreter and numpy do them *)

Module Py.

(** One insertion step. [acc] is the sorted prefix read from its right end
    (largest first); [x], the next element of the input, moves left past
    every element it is strictly less than and stops at the first one it is
    not less than. *)
Fixpoint place {A} (lt : A -> A -> bool) (x : A) (acc : list A) : list A :=
  match acc with
  | [] => [x]
  | k :: ks => if lt x k then k :: place lt x ks else x :: acc
  end.

(** A stable ascending sort: the elements are placed one after the other,
    left to right. Any stable sort returns this list, timsort included. *)
Definition stable_sort {A} (lt : A -> A -> bool) (l : list A) : list A :=
  rev (fold_left (fun acc x => place lt x acc) l []).

(** [l.sort(key=key, reverse=True)]: the interpreter reverses the list,
    sorts it (stable, ascending, comparing keys with [<]) and reverses the
    outcome. *)
Definition sort_reverse {A} (key : A -> nat) (l : list A) : list A :=
  rev (stable_sort (fun a b => Nat.ltb (key a) (key b)) (rev l)).

(** [l[:n]] *)
Definition slice_to {A} (n : Z) (l : list A) : list A :=
  if (n <? 0)%Z then firstn (List.length l - Z.to_nat (- n)) l
  else firstn (Z.to_nat n) l.

(** [l[i]] for an index that is not negative. *)
Definition getitem {A} (l : list A) (i : nat) : result A :=
  match nth_error l i with
  | Some a => Ok a
  | None => Raise IndexError
  end.

(** A list comprehension whose element expression may raise. *)
Fixpoint comprehension {A B} (f : A -> result B) (l : list A) : result (list B) :=
  match l with
  | [] => Ok []
  | a :: rest =>
      result_bind (f a) (fun b =>
      result_bind (comprehension f rest) (fun bs => Ok (b :: bs)))
  end.

End Py.

(** [numpy.float64] and the order numpy sorts it by. *)
Class Float64 : Type := {
  float64 : Type;
  less : float64 -> float64 -> bool
}.

(** The IEEE binary64 instance: numpy's [less] puts NaN last. *)
Definition np_less (a b : float) : bool :=
  PrimFloat.ltb a b || (negb (PrimFloat.eqb b b) && PrimFloat.eqb a a).

Definition binary64 : Float64 := {| float64 := float; less := np_less |}.

Module Np.

(** [np.argsort(v)] with the default [kind], on a short array. numpy's
    portable introsort partitions an array only while it is longer than
    its small-array threshold; an array of up to 16 elements goes straight
    to the closing insertion sort of the index array, which compares the
    values the indices point to and moves an index left only past a
    strictly greater value. That pass is what is written here, and as a
    function it keeps equal values in place at every length. numpy's
    default sort does not promise that: longer arrays are partitioned, and
    builds that sort with vector instructions order equal values by their
    sorting networks. So this function stands for one index sort that meets
    numpy's contract; what is said about the order of equal scores is said
    of every such sort ([ascending_index_sort]). *)
Definition argsort {F : Float64} (v : list float64) : list nat :=
  map fst
    (Py.stable_sort (fun a b => less (snd a) (snd b))
       (combine (seq 0 (List.length v)) v)).

End Np.

(** ** scikit-learn's [TfidfVectorizer(stop_words='english')] *)

(** The parts of the library the development does not write out: the
    stop-word table and the floating-point stages. [idf_fit] is the fit of
    the idf weights on a count matrix, [tfidf_rows] turns count rows into
    weighted, normalised rows, [cosine_similarity] is the function of that
    name. *)
Class Sklearn (F : Float64) : Type := {
  english_stop_words : list string;
  idf_fit : list (list nat) -> list float64;
  tfidf_rows : list float64 -> list (list nat) -> list (list float64);
  cosine_similarity :
    list (list float64) -> list (list float64) -> list (list float64)
}.

Module Vectorizer.

(** [\w] on ASCII text. *)
Definition is_word_char (c : ascii) : bool :=
  let n := PyStr.code c in
  (((48 <=? n) && (n <=? 57)) || ((65 <=? n) && (n <=? 90))
   || ((97 <=? n) && (n <=? 122)) || (n =? 95))%nat.

(** The default [token_pattern], [(?u)\b\w\w+\b]: the maximal runs of word
    characters that are at least two characters long. *)
Fixpoint tokens_from (s cur : string) : list string :=
  let emit := if (2 <=? String.length cur)%nat then [cur] else [] in
  match s with
  | EmptyString => emit
  | String c t =>
      if is_word_char c then tokens_from t (cur ++ String c "")
      else emit ++ tokens_from t ""
  end.

(** [build_analyzer()]: lower-case, tokenise, drop the stop words. *)
Definition analyze {F} {L : Sklearn F} (doc : string) : list string :=
  filter (fun t => negb (existsb (String.eqb t) english_stop_words))
    (tokens_from (PyStr.lower doc) "").

(** The fitted vocabulary: the distinct terms, sorted. *)
Definition vocabulary_of {F} {L : Sklearn F} (docs : list string) : list string :=
  Py.stable_sort String.ltb (nodup string_dec (flat_map analyze docs)).

(** One row of the count matrix per document, one column per term. *)
Definition count_rows {F} {L : Sklearn F}
    (vocabulary : list string) (docs : list string) : list (list nat) :=
  map (fun doc => map (count_occ string_dec (analyze doc)) vocabulary) docs.

(** What [fit] stores in the vectorizer: [vocabulary_] and [idf_]. *)
Record fitted {F : Float64} : Type := mkFitted {
  vocabulary_ : list string;
  idf_ : list float64
}.
Arguments mkFitted {F} vocabulary_ idf_.

(** [fit_transform(documents)] on the vectorizer's current state. The
    vocabulary is learnt afresh; an empty one raises ["empty vocabulary;
    perhaps the documents only contain stop words"] and leaves the state
    alone. *)
Definition fit_transform {F} {L : Sklearn F}
    (state : option (@fitted F)) (docs : list string)
  : result (list (list float64)) * option (@fitted F) :=
  match vocabulary_of docs with
  | [] => (Raise ValueError, state)
  | vocabulary =>
      let counts := count_rows vocabulary docs in
      let idf := idf_fit counts in
      (Ok (tfidf_rows idf counts), Some (mkFitted vocabulary idf))
  end.

(** [transform(documents)] *)
Definition transform {F} {L : Sklearn F}
    (state : option (@fitted F)) (docs : list string)
  : result (list (list float64)) :=
  match state with
  | None => Raise NotFittedError
  | Some f => Ok (tfidf_rows (idf_ f) (count_rows (vocabulary_ f) docs))
  end.

End Vectorizer.

(** ** [src/SearchEngine.py] *)

(** What one request to the chat endpoint comes back with: an exception of
    the client, or a response whose [choices] each hold a
    [message.content] that may be [None]. *)
Inductive response : Type :=
| ApiError
| Completion (choices : list (option string)).

(** The language-model collaborator: the outcome of the [n]-th request the
    process issues, given the query it carries. *)
Class Endpoint : Type := chat_completions_create : nat -> string -> response.

(** [response.choices and response.choices[0].message.content]: the content
    when there is a first choice and its content is a non-empty string. *)
Definition usable_content (choices : list (option string)) : option string :=
  match choices with
  | Some (String c t) :: _ => Some (String c t)
  | _ => None
  end.

(** An endpoint whose answers to [query] never hold usable content. *)
Definition always_malformed {E : Endpoint} (query : string) : Prop :=
  forall n, exists choices,
    chat_completions_create n query = Completion choices
    /\ usable_content choices = None.

(** [[keyword.strip() for keyword in content.split(',') if keyword.strip()]] *)
Definition parse_keywords (content : string) : list string :=
  filter (fun keyword => negb (String.eqb keyword ""))
    (map PyStr.strip (PyStr.split "," content)).

(** The number of nested calls [__query_to_keywords] can still make. *)
Definition calls_left (recursive recursive_max : Z) : nat :=
  if (recursive >? recursive_max)%Z then 0 else S (Z.to_nat (4 - recursive)).

(** [__query_to_keywords(query, recursive, recursive_max)], with the number
    of requests issued so far threaded through: the keywords, and the
    number of requests issued once it returns. The nested call passes
    [recursive + 1] and no [recursive_max], which is then the default, 3. *)
Equations? query_to_keywords {E : Endpoint}
    (query : string) (recursive recursive_max : Z) (requests : nat)
  : list string * nat by wf (calls_left recursive recursive_max) lt :=
  query_to_keywords query recursive recursive_max requests
    with Z_gt_dec recursive recursive_max => {
    | left _ := ([], requests);
    | right _ with chat_completions_create requests query => {
      | ApiError := ([], S requests);
      | Completion choices with usable_content choices => {
        | Some content := (parse_keywords content, S requests);
        | None := query_to_keywords query (recursive + 1) 3 (S requests) } } }.
Proof.
  unfold calls_left.
  destruct (recursive >? recursive_max)%Z eqn:Hgt; [lia|].
  destruct (recursive + 1 >? 3)%Z eqn:Hnext; lia.
Qed.

(** What the ranker needs of a record: [str(profile)] and, in the handler
    of a failed scoring, [profile.get_data('url')]. Either may raise. *)
Class Scorable (P : Type) : Type := {
  py_str : P -> result string;
  get_data_url : P -> result string
}.

#[export] Instance Profile_scorable : Scorable Profile := {|
  py_str := fun p => Ok (Profile_str p);
  get_data_url := Profile_get_data_url
|}.

(** [sum(keyword.lower() in profile_text.lower() for keyword in keywords)] *)
Definition keyword_count (profile_text : string) (keywords : list string) : nat :=
  List.length
    (filter (fun keyword =>
               PyStr.contains (PyStr.lower keyword) (PyStr.lower profile_text))
       keywords).

(** The loop of [__rank_by_keywords]: a scored record is appended; when the
    scoring raises, the handler logs the record's url and the loop goes on,
    unless building the log line raises in turn. *)
Fixpoint score_profiles {P} {R : Scorable P}
    (profiles : list P) (keywords : list string) : result (list (P * nat)) :=
  match profiles with
  | [] => Ok []
  | profile :: rest =>
      match py_str profile with
      | Ok profile_text =>
          result_bind (score_profiles rest keywords) (fun scored =>
          Ok ((profile, keyword_count profile_text keywords) :: scored))
      | Raise _ =>
          result_bind (get_data_url profile) (fun _ =>
          score_profiles rest keywords)
      end
  end.

(** [__rank_by_keywords(profiles, keywords)] *)
Definition rank_by_keywords {P} {R : Scorable P}
    (profiles : list P) (keywords : list string) : result (list P) :=
  result_bind (score_profiles profiles keywords) (fun ranked_profiles =>
  Ok (map fst (Py.sort_reverse snd ranked_profiles))).

(** The score [__rank_by_keywords] sorts a record by (0 stands for a
    record whose scoring raises and which therefore gets no score). *)
Definition hit_count {P} {R : Scorable P} (keywords : list string) (p : P) : nat :=
  match py_str p with
  | Ok profile_text => keyword_count profile_text keywords
  | Raise _ => 0
  end.

(** No record of the list makes the scoring raise. *)
Definition scores_without_error {P} {R : Scorable P} (profiles : list P) : Prop :=
  Forall (fun p => exists text, py_str p = Ok text) profiles.

(** The hit count in the words of the specification: the keywords that
    occur, whatever their case, in the record's flattened text. *)
Definition spec_hit_count (keywords : list string) (p : Profile) : nat :=
  keyword_count (spec_flattened_text p) keywords.

(** [x] stands somewhere before [y] in [l]. *)
Definition ranks_before {A} (x y : A) (l : list A) : Prop :=
  exists l1 l2 l3, l = l1 ++ x :: l2 ++ y :: l3.

(** The last four statements of [__tf_idf_rank]. *)
Definition sorted_indices {F : Float64} (cosine_similarities : list float64) : list nat :=
  rev (Np.argsort cosine_similarities).

Definition top_profile_indices {F : Float64}
    (cosine_similarities : list float64) (top_n : Z) : list nat :=
  Py.slice_to top_n (sorted_indices cosine_similarities).

Definition top_profiles {F : Float64} {P}
    (profiles : list P) (cosine_similarities : list float64) (top_n : Z)
  : result (list P) :=
  Py.comprehension (Py.getitem profiles)
    (top_profile_indices cosine_similarities top_n).

(** The state a search runs in: the number of requests sent to the
    endpoint so far and the engine's one vectorizer. *)
Record world {F : Float64} : Type := mkWorld {
  requests : nat;
  vectorizer : option (@Vectorizer.fitted F)
}.
Arguments mkWorld {F} requests vectorizer.

(** Computations that read and write the [world] and may raise. *)
Definition M {F : Float64} (A : Type) : Type := @world F -> result A * @world F.

Definition ret {F : Float64} {A} (a : A) : M A := fun w => (Ok a, w).

Definition bind {F : Float64} {A B} (m : M A) (k : A -> M B) : M B :=
  fun w =>
    match m w with
    | (Ok a, w') => k a w'
    | (Raise e, w') => (Raise e, w')
    end.

Definition lift {F : Float64} {A} (r : result A) : M A := fun w => (r, w).

Notation "x <- m ;; k" := (bind m (fun x => k))
  (at level 61, m at next level, right associativity).

(** The storage collaborator, [src.Database.Database], whose source is not
    among the files: taken as a parameter, the collection that
    [get_profiles()] returns. *)
Record Database : Type := mkDatabase { get_profiles : list Profile }.

Section Engine.

Context {F : Float64} {L : Sklearn F} {E : Endpoint}.
Variable db : Database.

(** [self.__query_to_keywords(query)], with its defaults. *)
Definition expand_query (query : string) : M (list string) :=
  fun w =>
    let '(keywords, n) := query_to_keywords query 0 3 (requests w) in
    (Ok keywords, mkWorld n (vectorizer w)).

(** [__simple_rank(query, top_n)] *)
Definition simple_rank (query : string) (top_n : Z) : M (list Profile) :=
  keywords <- expand_query query ;;
  let profiles := get_profiles db in
  ranked_profiles <- lift (rank_by_keywords profiles keywords) ;;
  ret (Py.slice_to top_n ranked_profiles).

(** [__compute_tfidf_matrix(documents)] *)
Definition compute_tfidf_matrix (documents : list string) : M (list (list float64)) :=
  fun w =>
    let '(r, state) := Vectorizer.fit_transform (vectorizer w) documents in
    (r, mkWorld (requests w) state).

(** [__compute_query_vector(query)] *)
Definition compute_query_vector (query : string) : M (list (list float64)) :=
  fun w => (Vectorizer.transform (vectorizer w) [query], w).

(** [__tf_idf_rank(query, top_n)]; [.flatten()] is [concat]. *)
Definition tf_idf_rank (query : string) (top_n : Z) : M (list Profile) :=
  let profiles := get_profiles db in
  let documents := map Profile_str profiles in
  tfidf_matrix <- compute_tfidf_matrix documents ;;
  query_vector <- compute_query_vector query ;;
  let cosine_similarities :=
    List.concat (cosine_similarity query_vector tfidf_matrix) in
  lift (top_profiles profiles cosine_similarities top_n).

(** [search(query, top_n)]: the first ranking is bound and then
    overwritten by the second. *)
Definition search (query : string) (top_n : Z) : M (list Profile) :=
  ranked_profiles <- simple_rank query top_n ;;
  ranked_profiles <- tf_idf_rank query top_n ;;
  ret ranked_profiles.

End Engine.

(** ** Sample data *)

Module Fixture.

Definition ada : Profile :=
  mkProfile "https://www.imperial.ac.uk/people/a.lovelace" "Ada Lovelace"
    "Department of Computing" "a.lovelace@imperial.ac.uk" "Huxley Building"
    ["https://orcid.org/0000"] "Research in machine learning"
    ["Notes on the analytical engine"] 139876543210000.

Definition alan : Profile :=
  mkProfile "https://www.imperial.ac.uk/people/a.turing" "Alan Turing"
    "Department of Mathematics" "a.turing@imperial.ac.uk" "Huxley Building"
    [] "Computability and morphogenesis" ["On computable numbers"]
    139876543210768.

Definition grace : Profile :=
  mkProfile "https://www.imperial.ac.uk/people/g.hopper" "Grace Hopper"
    "Department of Computing" "g.hopper@imperial.ac.uk" "N/A"
    [] "Compilers" [] 139876543211536.

(** A page with one mail-link, written with a blank after the colon. *)
Definition page : Soup.node :=
  Soup.Tag "[document]" []
    [Soup.Tag "html" []
       [Soup.Tag "body" []
          [Soup.Tag "h1" [] [Soup.NavigableString "Ada Lovelace"];
           Soup.Tag "a" [("href", "https://www.imperial.ac.uk")]
             [Soup.NavigableString "Home"];
           Soup.Tag "a" [("href", "mailto: a.lovelace@imperial.ac.uk")]
             [Soup.NavigableString "Email"]]]].

(** Endpoints that never give usable content, and one that always
    raises. *)
Definition no_choices : Endpoint := fun _ _ => Completion [].

Definition failing : Endpoint := fun _ _ => ApiError.

End Fixture.

(** ** The rest of [__get_main] and [get_data] *)

Module Bs4.

(** [soup.find(id=i)]: the first tag, in document order, whose [id]
    attribute is [i]. *)
Definition has_id (i : string) (n : Soup.node) : bool :=
  match Soup.get "id" n with
  | Some v => String.eqb v i
  | None => false
  end.

(** [soup.find(tag)]: the first tag of that name (the parser lower-cases
    tag names). *)
Definition has_name (tag : string) (n : Soup.node) : bool :=
  match n with
  | Soup.NavigableString _ => false
  | Soup.Tag name _ _ => String.eqb name tag
  end.

(** One compound of a CSS selector: an optional type, id and class, all of
    which the element has to have. *)
Record compound : Type := mkCompound {
  sel_tag : option string;
  sel_id : option string;
  sel_class : option string
}.

Definition holds (test : string -> Soup.node -> bool) (o : option string)
    (n : Soup.node) : bool :=
  match o with
  | Some v => test v n
  | None => true
  end.

Definition is_tag (n : Soup.node) : bool :=
  match n with
  | Soup.NavigableString _ => false
  | Soup.Tag _ _ _ => true
  end.

Definition compound_matches (c : compound) (n : Soup.node) : bool :=
  is_tag n && holds has_name (sel_tag c) n && holds has_id (sel_id c) n
  && holds Soup.has_class (sel_class c) n.

(** The nodes below [n], each with its ancestors, nearest first. *)
Fixpoint descendants_in (ancestors : list Soup.node) (n : Soup.node)
  : list (list Soup.node * Soup.node) :=
  match n with
  | Soup.NavigableString _ => []
  | Soup.Tag _ _ cs =>
      flat_map (fun c => (n :: ancestors, c) :: descendants_in (n :: ancestors) c) cs
  end.

(** The descendant combinator: [chain] lists the compounds an element's
    ancestors have to match, the nearest one first; each is matched by the
    nearest ancestor that fits above the previous match. *)
Fixpoint under (chain : list compound) (ancestors : list Soup.node) : bool :=
  match chain, ancestors with
  | [], _ => true
  | _ :: _, [] => false
  | c :: cs, a :: rest =>
      if compound_matches c a then under cs rest else under chain rest
  end.

(** [soup.select(selector)] for a selector [c1 c2 ... ck] built with the
    descendant combinator, given as [ck] and the list [c(k-1); ...; c1]:
    the matching elements in document order. *)
Definition select (last : compound) (above : list compound) (soup : Soup.node)
  : list Soup.node :=
  map snd
    (filter (fun p => compound_matches last (snd p) && under above (fst p))
       (descendants_in [] soup)).

Definition by_tag (t : string) : compound := mkCompound (Some t) None None.
Definition by_id (i : string) : compound := mkCompound None (Some i) None.
Definition by_class (c : string) : compound := mkCompound None None (Some c).

(** [select('ul.linklist a')] *)
Definition select_linklist : Soup.node -> list Soup.node :=
  select (by_tag "a") [mkCompound (Some "ul") None (Some "linklist")].

(** [select('.affiliations a')] *)
Definition select_affiliations : Soup.node -> list Soup.node :=
  select (by_tag "a") [by_class "affiliations"].

(** [select('#customContent p')] *)
Definition select_custom_content : Soup.node -> list Soup.node :=
  select (by_tag "p") [by_id "customContent"].

(** [select('#latestPubsContainer .latestPubListing p')] *)
Definition select_latest_pubs : Soup.node -> list Soup.node :=
  select (by_tag "p") [by_class "latestPubListing"; by_id "latestPubsContainer"].

(** [select('.publications-listing p')] *)
Definition select_publications_listing : Soup.node -> list Soup.node :=
  select (by_tag "p") [by_class "publications-listing"].

End Bs4.

(** The dictionary [__get_main] returns. An anchor without [href] puts
    [None] in [links]. *)
Record ProfileData : Type := mkData {
  d_name : string;
  d_department : string;
  d_contact : string;
  d_location : string;
  d_links : list (option string);
  d_summary : string;
  d_publications : list string
}.

(** [try: v = body / except Exception: v = handler] *)
Definition try_or {A} (body : result A) (handler : A) : A :=
  match body with
  | Ok v => v
  | Raise _ => handler
  end.

(** [soup.find(...).text.strip()] *)
Definition found_text (found : option Soup.node) : result string :=
  result_bind (deref found) (fun t => Ok (PyStr.strip (Soup.text t))).

(** [[soup.find(id=i).text.strip() for i in ids if soup.find(id=i)]]; a
    tag is truthy whatever its contents. *)
Definition region_texts (ids : list string) (soup : Soup.node) : list string :=
  flat_map (fun part_id =>
              match Soup.select_one (Bs4.has_id part_id) soup with
              | Some t => [PyStr.strip (Soup.text t)]
              | None => []
              end) ids.

(** [sep.join(parts) if parts else soup.find(...).text.strip()] *)
Definition joined_or (sep : string) (parts : list string)
    (otherwise : result string) : result string :=
  match parts with
  | [] => otherwise
  | _ :: _ => Ok (String.concat sep parts)
  end.

(** The name block. *)
Definition get_main_name (soup : Soup.node) : string :=
  try_or
    (joined_or " "
       (region_texts ["bannername"; "titlepart1"; "titlepart2"; "titlepart3"] soup)
       (found_text (Soup.select_one (Bs4.has_name "h1") soup)))
    (try_or
       (found_text (Soup.select_one (Soup.has_class "profile-name") soup))
       "N/A").

(** The department block. *)
Definition get_main_department (soup : Soup.node) : string :=
  try_or
    (joined_or ", " (region_texts ["titlepart4"; "titlepart5"] soup)
       (found_text (Soup.select_one (Soup.has_class "department-info") soup)))
    "N/A".

(** The location block. *)
Definition get_main_location (soup : Soup.node) : string :=
  try_or
    (joined_or ", " (region_texts ["ot3"; "ot5"; "ot6"] soup)
       (found_text (Soup.select_one (Soup.has_class "location-info") soup)))
    "N/A".

(** The links block: [[a.get("href") for a in soup.select(...)]]. *)
Definition get_main_links (soup : Soup.node) : list (option string) :=
  try_or
    (Ok (map (Soup.get "href") (Bs4.select_linklist soup)))
    (try_or
       (Ok (map (Soup.get "href") (Bs4.select_affiliations soup)))
       []).

(** The summary block. *)
Definition get_main_summary (soup : Soup.node) : string :=
  try_or
    (Ok (String.concat " "
           (map (fun p => PyStr.strip (Soup.text p))
              (Bs4.select_custom_content soup))))
    (try_or
       (found_text (Soup.select_one (Soup.has_class "summary-text") soup))
       "N/A").

(** The publications block. *)
Definition get_main_publications (soup : Soup.node) : list string :=
  try_or
    (Ok (map (fun pub => PyStr.strip (Soup.text pub))
           (Bs4.select_latest_pubs soup)))
    (try_or
       (Ok (map (fun pub => PyStr.strip (Soup.text pub))
              (Bs4.select_publications_listing soup)))
       []).

(** [__get_main()] *)
Definition get_main (soup : Soup.node) : ProfileData :=
  mkData (get_main_name soup) (get_main_department soup)
    (get_main_contact soup) (get_main_location soup) (get_main_links soup)
    (get_main_summary soup) (get_main_publications soup).

(** A node that carries none of the markers [__get_main] looks for: a text
    node, or a tag that is no [h1], [a] or [p] and has neither an [id] nor
    a [class]. *)
Definition unmarked (n : Soup.node) : bool :=
  match n with
  | Soup.NavigableString _ => true
  | Soup.Tag name attrs _ =>
      negb (String.eqb name "h1") && negb (String.eqb name "a")
      && negb (String.eqb name "p")
      && match Soup.lookup "id" attrs with Some _ => false | None => true end
      && match Soup.lookup "class" attrs with Some _ => false | None => true end
  end.

(** A value of the [__data] dictionary. *)
Inductive value : Type :=
| Str (s : string)
| Hrefs (l : list (option string))
| Strs (l : list string).

(** A Python [dict] with string keys: its items in insertion order, no key
    twice. *)
Definition dict : Type := list (string * value).

(** [d[key]] *)
Fixpoint dict_get (key : string) (d : dict) : result value :=
  match d with
  | [] => Raise KeyError
  | (k, v) :: rest => if String.eqb k key then Ok v else dict_get key rest
  end.

(** [d[key] = v]: a key that is there keeps its place. *)
Fixpoint dict_set (key : string) (v : value) (d : dict) : dict :=
  match d with
  | [] => [(key, v)]
  | (k, v') :: rest =>
      if String.eqb k key then (k, v) :: rest else (k, v') :: dict_set key v rest
  end.

(** [self.__data], as [__get_main] builds it. *)
Definition data_dict (d : ProfileData) : dict :=
  [("name", Str (d_name d)); ("department", Str (d_department d));
   ("contact", Str (d_contact d)); ("location", Str (d_location d));
   ("links", Hrefs (d_links d)); ("summary", Str (d_summary d));
   ("publications", Strs (d_publications d))].

(** [{key: self.__data[key] for key in args}], from the entries gathered
    so far. *)
Fixpoint dict_comprehension (source : dict) (args : list string) (acc : dict)
  : result dict :=
  match args with
  | [] => Ok acc
  | key :: rest =>
      result_bind (dict_get key source) (fun v =>
      dict_comprehension source rest (dict_set key v acc))
  end.

(** What [get_data] returns: a dictionary, or the one value of a
    one-entry dictionary. *)
Inductive returned : Type :=
| Dict (d : dict)
| Bare (v : value).

(** [get_data], called with the keys [args]. *)
Definition get_data (data : dict) (args : list string) : result returned :=
  match args with
  | [] => Ok (Dict data)
  | _ :: _ =>
      result_bind (dict_comprehension data args []) (fun selected =>
      match selected with
      | [(_, v)] => Ok (Bare v)
      | _ => Ok (Dict selected)
      end)
  end.

(** The [__data] of a [Profile]. *)
Definition Profile_data (p : Profile) : dict :=
  data_dict (mkData (name p) (department p) (contact p) (location p)
               (map Some (links p)) (summary p) (publications p)).

(** ** Keywords *)

(** A keyword in the form [parse_keywords] leaves them in: not empty, no
    white space at either end, no comma. *)
Definition well_formed_keyword (keyword : string) : Prop :=
  keyword <> "" /\ PyStr.strip keyword = keyword
  /\ PyStr.contains "," keyword = false.

(** ** The ranking over any index sort *)

(** What numpy promises of [np.argsort] with the default [kind]: the
    indices that sort the array, with no word on how equal values are
    ordered. [ascending_index_sort argsort scores] says that much of a
    function at [scores]: its result is a permutation of the indices, and
    an index it lists before another never points to a strictly greater
    score. *)
Definition ascending_index_sort {F : Float64}
    (argsort : list float64 -> list nat) (scores : list float64) : Prop :=
  Permutation (argsort scores) (seq 0 (List.length scores))
  /\ forall i j si sj,
       ranks_before i j (argsort scores) ->
       nth_error scores i = Some si ->
       nth_error scores j = Some sj ->
       less sj si = false.

(** The last four statements of [__tf_idf_rank] with the index sort as a
    parameter; at [Np.argsort] they are [top_profile_indices] and
    [top_profiles]. *)
Definition top_profile_indices_by {F : Float64}
    (argsort : list float64 -> list nat)
    (cosine_similarities : list float64) (top_n : Z) : list nat :=
  Py.slice_to top_n (rev (argsort cosine_similarities)).

Definition top_profiles_by {F : Float64} {P}
    (argsort : list float64 -> list nat)
    (profiles : list P) (cosine_similarities : list float64) (top_n : Z)
  : result (list P) :=
  Py.comprehension (Py.getitem profiles)
    (top_profile_indices_by argsort cosine_similarities top_n).

(** ** Conditions on the numeric library *)

(** [less] orders the values of [l] as a strict weak order does: no value
    is both less and greater than another, and "not less" is transitive. *)
Definition weak_order_on {F : Float64} (l : list float64) : bool :=
  forallb (fun a => forallb (fun b =>
    (negb (less a b) || negb (less b a))
    && forallb (fun c => less a b || less b c || negb (less a c)) l) l) l.

(** The shapes scikit-learn guarantees: [tfidf_rows] returns a row per
    count row, and the similarity of one query row to a matrix has one
    entry per row of the matrix. *)
Definition shapes_kept {F : Float64} (L : Sklearn F) : Prop :=
  (forall idf counts,
      List.length (tfidf_rows idf counts) = List.length counts)
  /\ (forall q m,
        List.length q = 1 ->
        List.length (List.concat (cosine_similarity q m)) = List.length m).

(** A stand-in for the numeric library, to run the engine on: three stop
    words, raw counts for weights, and dot products for similarities. It
    keeps the shapes; it is not scikit-learn's arithmetic. *)
Module StandIn.

Fixpoint to_float (n : nat) : float :=
  match n with
  | O => 0%float
  | S k => (to_float k + 1)%float
  end.

Fixpoint dot (a b : list float) : float :=
  match a, b with
  | x :: a', y :: b' => (x * y + dot a' b')%float
  | _, _ => 0%float
  end.

Definition weigh (idf : list float) (counts : list (list nat))
  : list (list float) := map (map to_float) counts.

Definition similarities (q m : list (list float)) : list (list float) :=
  map (fun row => map (dot row) m) q.

Definition library : Sklearn binary64 :=
  @Build_Sklearn binary64 ["at"; "the"; "of"] (fun _ => []) weigh similarities.

End StandIn.

(** * Properties *)

(** ** Insertion and the two sorts *)

Section PlaceFacts.

Context {A : Type} (lt : A -> A -> bool).

Lemma place_split (x : A) (acc : list A) :
  exists l1 l2,
    acc = l1 ++ l2 /\ Py.place lt x acc = l1 ++ x :: l2
    /\ Forall (fun k => lt x k = true) l1.
Proof.
  induction acc as [|k ks IH]; simpl.
  - exists [], []. repeat split; constructor.
  - destruct (lt x k) eqn:Hlt.
    + destruct IH as (l1 & l2 & -> & Hp & Hall).
      exists (k :: l1), l2. rewrite Hp. repeat split. now constructor.
    + exists [], (k :: ks). repeat split; constructor.
Qed.

Lemma place_perm (x : A) (acc : list A) :
  Permutation (Py.place lt x acc) (x :: acc).
Proof.
  destruct (place_split x acc) as (l1 & l2 & -> & -> & _).
  symmetry. apply Permutation_middle.
Qed.

Lemma fold_place_perm (l acc : list A) :
  Permutation (fold_left (fun a x => Py.place lt x a) l acc) (l ++ acc).
Proof.
  revert acc. induction l as [|x l IH]; intros acc; simpl.
  - reflexivity.
  - rewrite IH. rewrite place_perm. symmetry. apply Permutation_middle.
Qed.

Lemma stable_sort_perm (l : list A) : Permutation (Py.stable_sort lt l) l.
Proof.
  unfold Py.stable_sort. rewrite <- Permutation_rev, fold_place_perm.
  now rewrite app_nil_r.
Qed.

Lemma ranks_before_cons (c a b : A) (l : list A) :
  ranks_before a b l -> ranks_before a b (c :: l).
Proof.
  intros (m1 & m2 & m3 & ->). now exists (c :: m1), m2, m3.
Qed.

Lemma ranks_before_head (a b : A) (l : list A) :
  In b l -> ranks_before a b (a :: l).
Proof.
  intros Hin. apply in_split in Hin. destruct Hin as (m2 & m3 & ->).
  now exists [], m2, m3.
Qed.

Lemma ranks_before_insert (x a b : A) (l1 l2 : list A) :
  ranks_before a b (l1 ++ l2) -> ranks_before a b (l1 ++ x :: l2).
Proof.
  induction l1 as [|c l1 IH]; simpl.
  - apply ranks_before_cons.
  - intros (m1 & m2 & m3 & Heq). destruct m1 as [|c' m1]; simpl in Heq.
    + injection Heq as -> Heq. apply ranks_before_head.
      assert (Hin : In b (l1 ++ l2)).
      { rewrite Heq. apply in_or_app. right. now left. }
      apply in_app_or in Hin. apply in_or_app.
      destruct Hin as [Hin | Hin]; [now left | right; now right].
    + injection Heq as -> Heq. apply ranks_before_cons, IH.
      now exists m1, m2, m3.
Qed.

(** Placing a new element never swaps two that are already there. *)
Lemma place_keeps_order (x a b : A) (acc : list A) :
  ranks_before a b acc -> ranks_before a b (Py.place lt x acc).
Proof.
  destruct (place_split x acc) as (l1 & l2 & -> & -> & _).
  apply ranks_before_insert.
Qed.

(** A new element is placed before every element it is not less than. *)
Lemma place_goes_before (x y : A) (acc : list A) :
  In y acc -> lt x y = false -> ranks_before x y (Py.place lt x acc).
Proof.
  induction acc as [|k ks IH]; simpl; [easy|].
  intros Hin Hlt. destruct (lt x k) eqn:Hk.
  - destruct Hin as [-> | Hin]; [congruence|].
    apply ranks_before_cons, IH; assumption.
  - apply ranks_before_head. exact Hin.
Qed.

Lemma fold_place_keeps_order (a b : A) (l acc : list A) :
  ranks_before a b acc ->
  ranks_before a b (fold_left (fun c x => Py.place lt x c) l acc).
Proof.
  revert acc. induction l as [|x l IH]; intros acc H; simpl; [assumption|].
  apply IH, place_keeps_order, H.
Qed.

(** Of two elements of the input, the later one ends up first, unless it
    is strictly less than the earlier one. *)
Lemma fold_place_later_first (x y : A) (l1 l2 l3 acc : list A) :
  lt x y = false ->
  ranks_before x y
    (fold_left (fun c z => Py.place lt z c) (l1 ++ y :: l2 ++ x :: l3) acc).
Proof.
  intros Hlt.
  rewrite fold_left_app. simpl. rewrite fold_left_app. simpl.
  apply fold_place_keeps_order, place_goes_before; [|assumption].
  eapply Permutation_in; [symmetry; apply fold_place_perm|].
  apply in_or_app. right.
  eapply Permutation_in; [symmetry; apply place_perm|]. now left.
Qed.

End PlaceFacts.

(** ** The descending sort of the lexical ranker *)

Section SortReverseFacts.

Context {A : Type} (key : A -> nat).

Let ltk (a b : A) : bool := Nat.ltb (key a) (key b).

(** Reversing, sorting and reversing again is one right-to-left pass of
    insertions. *)
Lemma sort_reverse_fold_right (l : list A) :
  Py.sort_reverse key l = fold_right (Py.place ltk) [] l.
Proof.
  unfold Py.sort_reverse, Py.stable_sort.
  rewrite rev_involutive, <- fold_left_rev_right, rev_involutive.
  reflexivity.
Qed.

Lemma place_filter_key (c : nat) (x : A) (acc : list A) :
  filter (fun a => Nat.eqb (key a) c) (Py.place ltk x acc)
  = filter (fun a => Nat.eqb (key a) c) (x :: acc).
Proof.
  induction acc as [|k ks IH]; simpl; [reflexivity|].
  unfold ltk at 1. destruct (Nat.ltb_spec (key x) (key k)) as [Hlt | Hge].
  - simpl. rewrite IH. simpl.
    destruct (Nat.eqb_spec (key x) c), (Nat.eqb_spec (key k) c);
      try reflexivity; lia.
  - reflexivity.
Qed.

Lemma place_sorted (x : A) (acc : list A) :
  StronglySorted (fun a b => key b <= key a) acc ->
  StronglySorted (fun a b => key b <= key a) (Py.place ltk x acc).
Proof.
  induction 1 as [|k ks Hs IH Hk]; simpl.
  - repeat constructor.
  - unfold ltk at 1. destruct (Nat.ltb_spec (key x) (key k)) as [Hlt | Hge].
    + constructor; [exact IH|].
      eapply Permutation_Forall; [symmetry; apply place_perm|].
      constructor; [lia | exact Hk].
    + constructor; [now constructor|].
      constructor; [exact Hge|].
      eapply Forall_impl; [|exact Hk]. simpl. intros; lia.
Qed.

Lemma sort_reverse_sorted (l : list A) :
  StronglySorted (fun a b => key b <= key a) (Py.sort_reverse key l).
Proof.
  rewrite sort_reverse_fold_right.
  induction l as [|x l IH]; simpl; [constructor | now apply place_sorted].
Qed.

Lemma sort_reverse_stable (c : nat) (l : list A) :
  filter (fun a => Nat.eqb (key a) c) (Py.sort_reverse key l)
  = filter (fun a => Nat.eqb (key a) c) l.
Proof.
  rewrite sort_reverse_fold_right.
  induction l as [|x l IH]; simpl; [reflexivity|].
  rewrite place_filter_key. simpl. now rewrite IH.
Qed.

Lemma sort_reverse_perm (l : list A) : Permutation (Py.sort_reverse key l) l.
Proof.
  unfold Py.sort_reverse.
  rewrite <- Permutation_rev, stable_sort_perm. symmetry. apply Permutation_rev.
Qed.

End SortReverseFacts.

(** ** The lexical ranker *)

Section LexicalRanker.

Context {P : Type} {R : Scorable P}.

Lemma score_profiles_total (profiles : list P) (keywords : list string) :
  scores_without_error profiles ->
  score_profiles profiles keywords
  = Ok (map (fun p => (p, hit_count keywords p)) profiles).
Proof.
  induction 1 as [|p ps [text Hp] _ IH]; simpl; [reflexivity|].
  unfold hit_count at 1. rewrite Hp, IH. reflexivity.
Qed.

Lemma rank_by_keywords_total (profiles : list P) (keywords : list string) :
  scores_without_error profiles ->
  rank_by_keywords profiles keywords
  = Ok (map fst (Py.sort_reverse snd
                   (map (fun p => (p, hit_count keywords p)) profiles))).
Proof.
  intros H. unfold rank_by_keywords. now rewrite score_profiles_total.
Qed.

Lemma scored_sorted (keywords : list string) (l : list (P * nat)) :
  Forall (fun a => snd a = hit_count keywords (fst a)) l ->
  StronglySorted (fun a b => snd b <= snd a) l ->
  StronglySorted
    (fun p q => hit_count keywords q <= hit_count keywords p) (map fst l).
Proof.
  intros Htag Hs. induction Hs as [|a l Hs IH Ha]; simpl; [constructor|].
  inversion Htag as [|? ? Htag_a Htag_l]; subst.
  constructor; [now apply IH|].
  rewrite Forall_map. rewrite Forall_forall in *.
  intros b Hb. rewrite <- Htag_a, <- (Htag_l b Hb). now apply Ha.
Qed.

Lemma scored_filter (keywords : list string) (c : nat) (l : list (P * nat)) :
  Forall (fun a => snd a = hit_count keywords (fst a)) l ->
  filter (fun p => Nat.eqb (hit_count keywords p) c) (map fst l)
  = map fst (filter (fun a => Nat.eqb (snd a) c) l).
Proof.
  induction 1 as [|a l Ha _ IH]; simpl; [reflexivity|].
  rewrite <- Ha. destruct (Nat.eqb (snd a) c); simpl; now rewrite IH.
Qed.

Lemma tagged (keywords : list string) (profiles : list P) :
  Forall (fun a => snd a = hit_count keywords (fst a))
    (map (fun p => (p, hit_count keywords p)) profiles).
Proof. rewrite Forall_map. now apply Forall_forall. Qed.

(** The ranking of records that all get a score: it is in descending order
    of hit count, the records with any given count stand as in the input,
    and it is a rearrangement of the input. *)
Lemma rank_by_keywords_spec (profiles : list P) (keywords : list string) :
  scores_without_error profiles ->
  exists ranked,
    rank_by_keywords profiles keywords = Ok ranked
    /\ StronglySorted
         (fun p q => hit_count keywords q <= hit_count keywords p) ranked
    /\ (forall c,
          filter (fun p => Nat.eqb (hit_count keywords p) c) ranked
          = filter (fun p => Nat.eqb (hit_count keywords p) c) profiles)
    /\ Permutation ranked profiles.
Proof.
  intros H. eexists. split; [now apply rank_by_keywords_total|].
  set (scored := map (fun p => (p, hit_count keywords p)) profiles).
  assert (Htag : Forall (fun a => snd a = hit_count keywords (fst a))
                   (Py.sort_reverse snd scored)).
  { eapply Permutation_Forall; [symmetry; apply sort_reverse_perm|].
    apply tagged. }
  assert (Hfst : map fst scored = profiles).
  { unfold scored. rewrite map_map. simpl. apply map_id. }
  repeat split.
  - apply scored_sorted; [exact Htag | apply sort_reverse_sorted].
  - intros c. rewrite scored_filter by exact Htag.
    rewrite sort_reverse_stable.
    rewrite <- (@scored_filter keywords c scored) by apply tagged.
    now rewrite Hfst.
  - etransitivity; [apply Permutation_map, sort_reverse_perm|].
    now rewrite Hfst.
Qed.

End LexicalRanker.

Lemma Profile_scores_without_error (profiles : list Profile) :
  scores_without_error profiles.
Proof. apply Forall_forall. intros p _. now exists (Profile_str p). Qed.

(** The score of a [Profile] depends on nothing but the address in its
    default [repr]: none of its fields enters it. *)
Lemma hit_count_ignores_fields (keywords : list string) (p q : Profile) :
  id_ p = id_ q -> hit_count keywords p = hit_count keywords q.
Proof.
  intros H. unfold hit_count. simpl. unfold Profile_str. now rewrite H.
Qed.

(** C2. The lexical score is meant to count the keywords that occur in the
    record's flattened text. On a record whose summary is "Research in
    machine learning" and for the single keyword "learning" the ranker
    scores 0, because the text it searches is
    ["<src.Profile.Profile object at 0x7f378baba210>"], while the count
    over the flattened fields is 1. *)
Theorem lexical_score_misses_record_text :
  Profile_str Fixture.ada = "<src.Profile.Profile object at 0x7f378baba210>"
  /\ score_profiles [Fixture.ada] ["learning"] = Ok [(Fixture.ada, 0)]
  /\ spec_hit_count ["learning"] Fixture.ada = 1.
Proof. repeat split; vm_compute; reflexivity. Qed.

(** C4. The lexical ranker returns the records in descending order of
    keyword-hit count, and for every count the records with that count
    stand in the output in the order they have in the input. *)
Theorem rank_by_keywords_descending_stable
    (profiles : list Profile) (keywords : list string) :
  exists ranked,
    rank_by_keywords profiles keywords = Ok ranked
    /\ StronglySorted
         (fun p q => hit_count keywords q <= hit_count keywords p) ranked
    /\ (forall c,
          filter (fun p => Nat.eqb (hit_count keywords p) c) ranked
          = filter (fun p => Nat.eqb (hit_count keywords p) c) profiles).
Proof.
  destruct (rank_by_keywords_spec keywords
              (Profile_scores_without_error profiles))
    as (ranked & Hok & Hsorted & Hstable & _).
  now exists ranked.
Qed.

(** C10. When the scoring of no record raises, the lexical ranker returns
    a permutation of its input: the same records, each as often as in the
    input, hence as many. *)
Theorem rank_by_keywords_permutation {P : Type} {R : Scorable P}
    (profiles : list P) (keywords : list string) :
  scores_without_error profiles ->
  exists ranked,
    rank_by_keywords profiles keywords = Ok ranked
    /\ Permutation ranked profiles
    /\ List.length ranked = List.length profiles.
Proof.
  intros H.
  destruct (rank_by_keywords_spec keywords H) as (ranked & Hok & _ & _ & Hperm).
  exists ranked. repeat split; [exact Hok | exact Hperm |].
  now apply Permutation_length.
Qed.

Lemma rank_by_keywords_permutation_witness :
  scores_without_error [Fixture.ada; Fixture.alan; Fixture.grace]
  /\ exists ranked,
       rank_by_keywords [Fixture.ada; Fixture.alan; Fixture.grace]
         ["0x7f378baba21"; "object"] = Ok ranked
       /\ Permutation ranked [Fixture.ada; Fixture.alan; Fixture.grace]
       /\ List.length ranked = 3.
Proof.
  assert (H : scores_without_error [Fixture.ada; Fixture.alan; Fixture.grace]).
  { repeat constructor; eexists; reflexivity. }
  split; [exact H|].
  exact (rank_by_keywords_permutation ["0x7f378baba21"; "object"] H).
Defined.

(** ** Keyword expansion *)

(** One unfolding of [__query_to_keywords]. *)
Lemma query_to_keywords_step {E : Endpoint}
    (query : string) (recursive recursive_max : Z) (requests : nat) :
  query_to_keywords query recursive recursive_max requests
  = if (recursive >? recursive_max)%Z then ([], requests)
    else match chat_completions_create requests query with
         | ApiError => ([], S requests)
         | Completion choices =>
             match usable_content choices with
             | Some content => (parse_keywords content, S requests)
             | None => query_to_keywords query (recursive + 1) 3 (S requests)
             end
         end.
Proof.
  funelim (query_to_keywords query recursive recursive_max requests).
  - destruct (Z.gtb_spec recursive recursive_max); [reflexivity | lia].
  - destruct (Z.gtb_spec recursive recursive_max); [lia|].
    now rewrite Heq.
  - destruct (Z.gtb_spec recursive recursive_max); [lia|].
    now rewrite Heq0, Heq.
  - destruct (Z.gtb_spec recursive recursive_max); [lia|].
    now rewrite Heq0, Heq.
Qed.

Ltac malformed_step H :=
  rewrite query_to_keywords_step;
  match goal with
  | |- context [chat_completions_create ?n ?q] =>
      let choices := fresh "choices" in
      let Hc := fresh "Hc" in
      let Hu := fresh "Hu" in
      destruct (H n) as (choices & Hc & Hu); rewrite Hc, Hu; clear Hc Hu choices
  end.

(** Against an endpoint that never gives usable content, an expansion that
    starts at depth 0 sends four requests whatever bound it is given, as
    long as the bound lets the first request through: the nested calls run
    with the default bound. *)
Lemma malformed_content_four_requests {E : Endpoint}
    (query : string) (recursive_max : Z) (requests : nat) :
  always_malformed query ->
  (0 <= recursive_max)%Z ->
  query_to_keywords query 0 recursive_max requests = ([], requests + 4).
Proof.
  intros H Hmax.
  malformed_step H.
  destruct (Z.gtb_spec 0 recursive_max) as [Hlt|_]; [lia|].
  do 3 (malformed_step H; simpl).
  rewrite query_to_keywords_step. simpl.
  f_equal. lia.
Qed.

(** With the default bound the count is the bound plus one. *)
Lemma malformed_content_default_bound {E : Endpoint}
    (query : string) (requests : nat) :
  always_malformed query ->
  query_to_keywords query 0 3 requests = ([], requests + Z.to_nat (3 + 1)).
Proof.
  intros H. now rewrite malformed_content_four_requests by (assumption || lia).
Qed.

(** C6. Against an endpoint that always returns a response without usable
    content, keyword expansion is meant to send at most [max_depth + 1]
    requests. Started at depth 0 with [max_depth = 0] it returns the empty
    list after four requests, not one. *)
Theorem malformed_content_exceeds_bound (query : string) (requests : nat) :
  @query_to_keywords Fixture.no_choices query 0 0 requests = ([], requests + 4)
  /\ ~ (4 <= Z.to_nat (0 + 1)).
Proof.
  split; [|simpl; lia].
  apply malformed_content_four_requests; [|lia].
  intros n. exists []. split; reflexivity.
Qed.

(** C7. When the request that keyword expansion sends raises, the
    expansion returns the empty list and that request is the last one: the
    count of requests goes up by one (and not at all when the depth already
    exceeds the bound, in which case nothing is sent). *)
Theorem transport_error_returns_empty {E : Endpoint}
    (query : string) (recursive recursive_max : Z) (requests : nat) :
  chat_completions_create requests query = ApiError ->
  query_to_keywords query recursive recursive_max requests
  = ([], if (recursive >? recursive_max)%Z then requests else S requests).
Proof.
  intros H. rewrite query_to_keywords_step, H.
  now destruct (recursive >? recursive_max)%Z.
Qed.

Lemma transport_error_returns_empty_witness :
  @chat_completions_create Fixture.failing 2 "robotics" = ApiError
  /\ @query_to_keywords Fixture.failing "robotics" 2 3 2 = ([], 3).
Proof.
  split; [reflexivity|].
  exact (@transport_error_returns_empty Fixture.failing "robotics" 2 3 2 eq_refl).
Defined.

(** ** The contact field *)

Lemma first_mail_link (soup a : Soup.node) :
  In a (Soup.descendants soup) -> Soup.is_mail_link a = true ->
  exists first href,
    Soup.select_one Soup.is_mail_link soup = Some first
    /\ Soup.get "href" first = Some href
    /\ PyStr.startswith "mailto:" href = true.
Proof.
  intros Hin Hlink. unfold Soup.select_one.
  destruct (find Soup.is_mail_link (Soup.descendants soup)) as [first|] eqn:Hfind.
  - apply find_some in Hfind. destruct Hfind as [_ Hfirst].
    destruct first as [s | tag attrs cs]; simpl in Hfirst; [discriminate|].
    apply andb_prop in Hfirst. destruct Hfirst as [_ Hhref].
    destruct (Soup.lookup "href" attrs) as [href|] eqn:Hlookup; [|discriminate].
    exists (Soup.Tag tag attrs cs), href. simpl. now rewrite Hlookup.
  - apply (find_none _ _ Hfind) in Hin. congruence.
Qed.

Lemma substring_all (s : string) : String.substring 0 (String.length s) s = s.
Proof. induction s as [|c s IH]; simpl; [reflexivity | now rewrite IH]. Qed.

(** On a target that is the scheme followed by an address without further
    marker and without blanks around it, the contact is the target without
    its scheme. *)
Lemma contact_of_plain_mail_link (soup first : Soup.node) (address : string) :
  Soup.select_one Soup.is_mail_link soup = Some first ->
  Soup.get "href" first = Some ("mailto:" ++ address)%string ->
  PyStr.replace "mailto:" "" address = address ->
  PyStr.strip address = address ->
  get_main_contact soup = without_mail_scheme ("mailto:" ++ address).
Proof.
  intros Hsel Hget Hrep Hstrip.
  unfold get_main_contact, contact_from_mail_link. rewrite Hsel. simpl.
  rewrite Hget. simpl.
  unfold without_mail_scheme. simpl. rewrite Nat.sub_0_r, substring_all.
  change (PyStr.strip (PyStr.replace "mailto:" "" address) = address).
  now rewrite Hrep, Hstrip.
Qed.

(** C8, as the specification states it, fails: on a page whose only
    mail-link has the target ["mailto: a.lovelace@imperial.ac.uk"] the
    contact is the address without the blank, which is not the target
    with its seven-character prefix removed. *)
Lemma contact_not_target_without_scheme :
  ~ (forall (soup a : Soup.node) (href : string),
       In a (Soup.descendants soup) ->
       Soup.is_mail_link a = true ->
       Soup.get "href" a = Some href ->
       get_main_contact soup = without_mail_scheme href).
Proof.
  intros claim.
  assert (H : get_main_contact Fixture.page
              = without_mail_scheme "mailto: a.lovelace@imperial.ac.uk").
  { apply claim
      with (a := Soup.Tag "a" [("href", "mailto: a.lovelace@imperial.ac.uk")]
                   [Soup.NavigableString "Email"]).
    - simpl. do 6 right. now left.
    - reflexivity.
    - reflexivity. }
  vm_compute in H. discriminate H.
Qed.

(** C8, amended. In a document that contains a mail-link, the contact is
    the target of the first mail-link with every occurrence of [mailto:]
    removed and the white space around the outcome trimmed. *)
Theorem contact_from_first_mail_link (soup a : Soup.node) :
  In a (Soup.descendants soup) ->
  Soup.is_mail_link a = true ->
  exists first href,
    Soup.select_one Soup.is_mail_link soup = Some first
    /\ Soup.get "href" first = Some href
    /\ PyStr.startswith "mailto:" href = true
    /\ get_main_contact soup = PyStr.strip (PyStr.replace "mailto:" "" href).
Proof.
  intros Hin Hlink.
  destruct (first_mail_link soup a Hin Hlink) as (first & href & Hsel & Hget & Hpre).
  exists first, href. repeat split; try assumption.
  unfold get_main_contact, contact_from_mail_link.
  rewrite Hsel. simpl. rewrite Hget. reflexivity.
Qed.

Lemma contact_from_first_mail_link_witness :
  let a := Soup.Tag "a" [("href", "mailto: a.lovelace@imperial.ac.uk")]
             [Soup.NavigableString "Email"] in
  In a (Soup.descendants Fixture.page)
  /\ Soup.is_mail_link a = true
  /\ exists first href,
       Soup.select_one Soup.is_mail_link Fixture.page = Some first
       /\ Soup.get "href" first = Some href
       /\ PyStr.startswith "mailto:" href = true
       /\ get_main_contact Fixture.page
          = PyStr.strip (PyStr.replace "mailto:" "" href).
Proof.
  intros a.
  assert (Hin : In a (Soup.descendants Fixture.page)).
  { simpl. do 6 right. now left. }
  assert (Hlink : Soup.is_mail_link a = true) by reflexivity.
  split; [exact Hin|]. split; [exact Hlink|].
  exact (contact_from_first_mail_link Fixture.page a Hin Hlink).
Defined.

(** ** The order of the statistical ranker *)

Lemma ranks_before_map {A B} (f : A -> B) (x y : A) (l : list A) :
  ranks_before x y l -> ranks_before (f x) (f y) (map f l).
Proof.
  intros (l1 & l2 & l3 & ->).
  exists (map f l1), (map f l2), (map f l3).
  rewrite map_app. simpl. now rewrite map_app.
Qed.

Lemma nth_error_two_split {A} (l : list A) (i j : nat) (a b : A) :
  i < j -> nth_error l i = Some a -> nth_error l j = Some b ->
  exists l1 l2 l3, l = l1 ++ a :: l2 ++ b :: l3.
Proof.
  intros Hij Ha Hb.
  apply nth_error_split in Ha. destruct Ha as (l1 & r & -> & Hlen).
  rewrite nth_error_app2 in Hb by lia.
  replace (j - List.length l1) with (S (j - i - 1)) in Hb by lia.
  simpl in Hb.
  apply nth_error_split in Hb. destruct Hb as (l2 & l3 & -> & _).
  now exists l1, l2, l3.
Qed.

Lemma nth_error_enumerate {A} (l : list A) (start i : nat) (a : A) :
  nth_error l i = Some a ->
  nth_error (combine (seq start (List.length l)) l) i = Some (start + i, a).
Proof.
  revert start i. induction l as [|x l IH]; intros start i H.
  - destruct i; discriminate.
  - destruct i as [|i]; simpl in *.
    + injection H as ->. now rewrite Nat.add_0_r.
    + rewrite (IH (S start) i H). f_equal. f_equal. lia.
Qed.

Lemma map_fst_enumerate {A} (l : list A) (start : nat) :
  map fst (combine (seq start (List.length l)) l) = seq start (List.length l).
Proof.
  revert start. induction l as [|x l IH]; intros start; simpl;
    [reflexivity | now rewrite IH].
Qed.

Section StatisticalOrder.

Context {F : Float64}.

Let by_score (a b : nat * float64) : bool := less (snd a) (snd b).

Lemma sorted_indices_fold (scores : list float64) :
  sorted_indices scores
  = map fst (fold_left (fun acc x => Py.place by_score x acc)
               (combine (seq 0 (List.length scores)) scores) []).
Proof.
  unfold sorted_indices, Np.argsort, Py.stable_sort.
  rewrite map_rev, rev_involutive. reflexivity.
Qed.

Lemma sorted_indices_perm (scores : list float64) :
  Permutation (sorted_indices scores) (seq 0 (List.length scores)).
Proof.
  rewrite sorted_indices_fold.
  etransitivity; [|rewrite <- (map_fst_enumerate scores 0); reflexivity].
  apply Permutation_map. rewrite fold_place_perm, app_nil_r. reflexivity.
Qed.

Lemma sorted_indices_NoDup (scores : list float64) :
  NoDup (sorted_indices scores).
Proof.
  eapply Permutation_NoDup; [symmetry; apply sorted_indices_perm|].
  apply seq_NoDup.
Qed.

End StatisticalOrder.

(** A slice [l[:n]] is a prefix of [l]. *)
Lemma slice_to_prefix {A} (n : Z) (l : list A) :
  exists k, Py.slice_to n l = firstn k l.
Proof. unfold Py.slice_to. destruct (n <? 0)%Z; eexists; reflexivity. Qed.

Lemma ranks_before_firstn {A} (x y : A) (l : list A) (k : nat) :
  NoDup l -> ranks_before x y l -> In y (firstn k l) ->
  ranks_before x y (firstn k l).
Proof.
  intros Hnd (l1 & l2 & l3 & ->) Hin.
  set (front := l1 ++ x :: l2).
  assert (Hl : l1 ++ x :: l2 ++ y :: l3 = front ++ y :: l3).
  { unfold front. rewrite <- app_assoc. reflexivity. }
  rewrite Hl in *. clear Hl.
  destruct (Nat.le_gt_cases k (List.length front)) as [Hk | Hk].
  - (* the cut falls before [y]: then [y] would occur twice *)
    exfalso. rewrite firstn_app in Hin.
    replace (k - List.length front) with 0 in Hin by lia.
    simpl in Hin. rewrite app_nil_r in Hin.
    assert (Hy : In y front).
    { rewrite <- (firstn_skipn k front). apply in_or_app. now left. }
    apply NoDup_remove_2 in Hnd. apply Hnd, in_or_app. now left.
  - rewrite firstn_app, firstn_all2 by lia.
    replace (k - List.length front) with (S (k - List.length front - 1)) by lia.
    simpl. exists l1, l2, (firstn (k - List.length front - 1) l3).
    unfold front. rewrite <- app_assoc. reflexivity.
Qed.

(** The records behind the ranked indices: when there are at least as many
    records as scores, no index is out of range. *)
Lemma top_profiles_by_index {F : Float64} {P}
    (profiles : list P) (scores : list float64) (top_n : Z) :
  List.length scores <= List.length profiles ->
  exists ranked,
    top_profiles profiles scores top_n = Ok ranked
    /\ map Some ranked
       = map (nth_error profiles) (top_profile_indices scores top_n).
Proof.
  intros Hlen. unfold top_profiles.
  assert (Hrange : Forall (fun i => i < List.length profiles)
                     (top_profile_indices scores top_n)).
  { apply Forall_forall. intros i Hi. unfold top_profile_indices in Hi.
    destruct (slice_to_prefix top_n (sorted_indices scores)) as [k Hk].
    rewrite Hk in Hi.
    assert (Hin : In i (sorted_indices scores)).
    { rewrite <- (firstn_skipn k (sorted_indices scores)).
      apply in_or_app. now left. }
    eapply Permutation_in in Hin; [|apply sorted_indices_perm].
    apply in_seq in Hin. lia. }
  induction Hrange as [|i l Hi _ IH]; simpl.
  - now exists [].
  - destruct IH as (ranked & -> & Hmap). unfold Py.getitem.
    destruct (nth_error profiles i) as [p|] eqn:Hp.
    + exists (p :: ranked). simpl. now rewrite Hmap.
    + apply nth_error_None in Hp. lia.
Qed.

(** C3, as the specification states it, fails: two records with the score
    0.0 (any query without a term of the vocabulary scores every record
    0.0) come out with the second one first. *)
Lemma equal_scores_not_in_collection_order :
  @top_profiles binary64 _ [Fixture.ada; Fixture.alan] [0%float; 0%float] 2
  = Ok [Fixture.alan; Fixture.ada]
  /\ ~ (forall (scores : list float) (top_n : Z) (i j : nat) (s : float),
          i < j ->
          nth_error scores i = Some s ->
          nth_error scores j = Some s ->
          In i (@top_profile_indices binary64 scores top_n) ->
          In j (@top_profile_indices binary64 scores top_n) ->
          ranks_before i j (@top_profile_indices binary64 scores top_n)).
Proof.
  split; [reflexivity|].
  intros claim.
  assert (H : ranks_before 0 1
                (@top_profile_indices binary64 [0%float; 0%float] 2)).
  { apply claim with (s := 0%float); simpl; auto. }
  change (ranks_before 0 1 [1; 0]) in H.
  destruct H as (l1 & l2 & l3 & H).
  destruct l1 as [|a [|b l1]]; simpl in H; try discriminate.
  - injection H as _ H. destruct l2; discriminate.
  - injection H as _ _ H. destruct l1; discriminate.
Qed.

Lemma ranks_before_rev {A} (x y : A) (l : list A) :
  ranks_before x y l -> ranks_before y x (rev l).
Proof.
  intros (l1 & l2 & l3 & ->). exists (rev l3), (rev l2), (rev l1).
  rewrite rev_app_distr. simpl. rewrite rev_app_distr. simpl.
  rewrite <- !app_assoc. reflexivity.
Qed.

Lemma ranks_before_prefix {A} (x y : A) (l : list A) (k : nat) :
  ranks_before x y (firstn k l) -> ranks_before x y l.
Proof.
  intros (l1 & l2 & l3 & H). exists l1, l2, (l3 ++ skipn k l).
  rewrite <- (firstn_skipn k l) at 1. rewrite H.
  rewrite <- !app_assoc. simpl. now rewrite <- !app_assoc.
Qed.

Section AnyIndexSort.

Context {F : Float64} (argsort : list float64 -> list nat).

Lemma indices_by_in_range (scores : list float64) (top_n : Z) (i : nat) :
  ascending_index_sort argsort scores ->
  In i (top_profile_indices_by argsort scores top_n) ->
  i < List.length scores.
Proof.
  intros [Hperm _] Hin. unfold top_profile_indices_by in Hin.
  destruct (slice_to_prefix top_n (rev (argsort scores))) as [k Hk].
  rewrite Hk in Hin.
  assert (Hrev : In i (rev (argsort scores))).
  { rewrite <- (firstn_skipn k (rev (argsort scores))).
    apply in_or_app. now left. }
  apply in_rev in Hrev. eapply Permutation_in in Hrev; [|exact Hperm].
  apply in_seq in Hrev. lia.
Qed.

Lemma top_profiles_by_indices {P} (profiles : list P) (scores : list float64)
    (top_n : Z) :
  ascending_index_sort argsort scores ->
  List.length scores = List.length profiles ->
  exists ranked,
    top_profiles_by argsort profiles scores top_n = Ok ranked
    /\ map Some ranked
       = map (nth_error profiles) (top_profile_indices_by argsort scores top_n).
Proof.
  intros Hsort Hlen. unfold top_profiles_by.
  assert (Hrange : Forall (fun i => i < List.length profiles)
                     (top_profile_indices_by argsort scores top_n)).
  { apply Forall_forall. intros i Hi. rewrite <- Hlen.
    now apply indices_by_in_range with (top_n := top_n). }
  induction Hrange as [|i l Hi _ IH]; simpl.
  - now exists [].
  - destruct IH as (ranked & -> & Hmap). unfold Py.getitem.
    destruct (nth_error profiles i) as [p|] eqn:Hp.
    + exists (p :: ranked). simpl. now rewrite Hmap.
    + apply nth_error_None in Hp. lia.
Qed.

Lemma order_by_index_sort (scores : list float64) (top_n : Z) (i j : nat) :
  ascending_index_sort argsort scores ->
  In j (top_profile_indices_by argsort scores top_n) ->
  ranks_before i j (top_profile_indices_by argsort scores top_n)
  <-> ranks_before j i (argsort scores).
Proof.
  intros [Hperm _] Hin. unfold top_profile_indices_by in *.
  destruct (slice_to_prefix top_n (rev (argsort scores))) as [k Hk].
  rewrite Hk in *. split.
  - intros H. apply ranks_before_prefix, ranks_before_rev in H.
    now rewrite rev_involutive in H.
  - intros H. apply ranks_before_firstn; [| now apply ranks_before_rev | exact Hin].
    apply NoDup_rev. eapply Permutation_NoDup; [symmetry; exact Hperm|].
    apply seq_NoDup.
Qed.

End AnyIndexSort.

(** The index sort of the embedding is the one the code's statements are
    written with. *)
Lemma top_profiles_by_np_argsort {F : Float64} {P}
    (profiles : list P) (scores : list float64) (top_n : Z) :
  top_profile_indices_by Np.argsort scores top_n
  = top_profile_indices scores top_n
  /\ top_profiles_by Np.argsort profiles scores top_n
     = top_profiles profiles scores top_n.
Proof. split; reflexivity. Qed.

(** C3, amended. Whatever index sort [np.argsort] is, as long as it
    returns the indices in ascending order of score, and with one score per
    record: the ranker returns the records that stand at the reversed
    indices, cut to [top_n]; of two records in the output the one the index
    sort lists later comes first, so that records with equal scores come
    out in the reverse of the order the index sort gave them, whatever that
    is; and no record comes before one with a strictly greater score. The
    collection order decides nothing. *)
Theorem ranking_reverses_index_sort {F : Float64} {P : Type}
    (argsort : list float64 -> list nat)
    (profiles : list P) (scores : list float64) (top_n : Z) :
  ascending_index_sort argsort scores ->
  List.length scores = List.length profiles ->
  exists ranked,
    top_profiles_by argsort profiles scores top_n = Ok ranked
    /\ map Some ranked
       = map (nth_error profiles) (top_profile_indices_by argsort scores top_n)
    /\ (forall i j,
          In j (top_profile_indices_by argsort scores top_n) ->
          ranks_before i j (top_profile_indices_by argsort scores top_n)
          <-> ranks_before j i (argsort scores))
    /\ (forall i j si sj,
          ranks_before i j (top_profile_indices_by argsort scores top_n) ->
          nth_error scores i = Some si ->
          nth_error scores j = Some sj ->
          less si sj = false).
Proof.
  intros Hsort Hlen.
  destruct (@top_profiles_by_indices F argsort P profiles scores top_n
              Hsort Hlen) as (ranked & Hok & Hmap).
  exists ranked. split; [exact Hok|]. split; [exact Hmap|]. split.
  - intros i j Hj. now apply order_by_index_sort.
  - intros i j si sj Hbefore Hi Hj.
    assert (Hin : In j (top_profile_indices_by argsort scores top_n)).
    { destruct Hbefore as (l1 & l2 & l3 & ->).
      apply in_or_app. right. right. apply in_or_app. right. now left. }
    apply (@order_by_index_sort F argsort scores top_n i j Hsort Hin)
      in Hbefore.
    destruct Hsort as [_ Hasc]. now apply (Hasc j i sj si).
Qed.

(** ** The search *)

Section SearchFacts.

Context {F : Float64} {L : Sklearn F}.

(** The statistical ranker refits the vectorizer before it uses it, so
    what it returns does not depend on the state it finds. *)
Lemma tf_idf_rank_any_world (db : Database) (query : string) (top_n : Z)
    (w w' : world) :
  fst (tf_idf_rank db query top_n w) = fst (tf_idf_rank db query top_n w').
Proof.
  unfold tf_idf_rank, bind, lift, compute_tfidf_matrix, compute_query_vector,
    Vectorizer.fit_transform.
  destruct (Vectorizer.vocabulary_of (map Profile_str (get_profiles db)));
    reflexivity.
Qed.

(** It sends nothing to the endpoint. *)
Lemma tf_idf_rank_requests (db : Database) (query : string) (top_n : Z)
    (w : world) :
  requests (snd (tf_idf_rank db query top_n w)) = requests w.
Proof.
  unfold tf_idf_rank, bind, lift, compute_tfidf_matrix, compute_query_vector,
    Vectorizer.fit_transform.
  destruct (Vectorizer.vocabulary_of (map Profile_str (get_profiles db)));
    reflexivity.
Qed.

(** The lexical stage of a search returns normally and leaves the
    vectorizer alone. *)
Lemma simple_rank_returns {E : Endpoint} (db : Database) (query : string)
    (top_n : Z) (w : world) :
  exists ranked w',
    simple_rank db query top_n w = (Ok ranked, w')
    /\ vectorizer w' = vectorizer w.
Proof.
  unfold simple_rank, bind, expand_query, lift, ret.
  destruct (query_to_keywords query 0 3 (requests w)) as [keywords n].
  destruct (rank_by_keywords_spec keywords
              (Profile_scores_without_error (get_profiles db)))
    as (ranked & -> & _).
  now eexists _, _.
Qed.

Lemma search_result {E : Endpoint} (db : Database) (query : string)
    (top_n : Z) (w : world) :
  fst (search db query top_n w) = fst (tf_idf_rank db query top_n w).
Proof.
  unfold search. unfold bind at 1.
  destruct (simple_rank_returns db query top_n w) as (ranked & w' & -> & _).
  unfold bind, ret.
  rewrite (tf_idf_rank_any_world db query top_n w w').
  destruct (tf_idf_rank db query top_n w') as [[r|e] w'']; reflexivity.
Qed.

(** On an empty collection the vocabulary is empty and the fit raises. *)
Lemma tf_idf_rank_empty_collection (query : string) (top_n : Z) (w : world) :
  tf_idf_rank (mkDatabase []) query top_n w = (Raise ValueError, w).
Proof. destruct w. reflexivity. Qed.

End SearchFacts.

(** C1. A search over an empty record collection is meant to return an
    empty sequence. It raises: the lexical stage returns the empty list,
    then the statistical stage fits the vectorizer on no document at all,
    and scikit-learn raises [ValueError] on the empty vocabulary, which
    nothing in [search] catches. *)
Theorem search_empty_collection_raises {F : Float64} {L : Sklearn F}
    {E : Endpoint} (query : string) (top_n : Z) (w : world) :
  fst (simple_rank (mkDatabase []) query top_n w) = Ok []
  /\ fst (search (mkDatabase []) query top_n w) = Raise ValueError.
Proof.
  split.
  - unfold simple_rank, bind, expand_query, lift, ret.
    destruct (query_to_keywords query 0 3 (requests w)) as [keywords n].
    simpl. unfold Py.slice_to. now destruct (top_n <? 0)%Z; rewrite firstn_nil.
  - now rewrite search_result, tf_idf_rank_empty_collection.
Qed.

(** C5. What [search] returns is what the statistical ranker returns for
    the same query and [top_n] (which is its ranking cut to [top_n]); it
    is the same whatever the endpoint answers, that is whatever the
    keywords and the lexical ranking are. *)
Theorem search_returns_statistical_ranking {F : Float64} {L : Sklearn F}
    (E E' : Endpoint) (db : Database) (query : string) (top_n : Z)
    (w w' : world) :
  fst (@search F L E db query top_n w) = fst (tf_idf_rank db query top_n w)
  /\ fst (@search F L E db query top_n w)
     = fst (@search F L E' db query top_n w').
Proof.
  split; [apply search_result|].
  rewrite !search_result. apply tf_idf_rank_any_world.
Qed.

(** C9. Two runs of the statistical ranker on the same collection, query
    and [top_n] return the same ranking: whatever state the shared
    vectorizer is in when a run starts, and in particular when the second
    run starts where the first one ended. *)
Theorem tf_idf_rank_deterministic {F : Float64} {L : Sklearn F}
    (db : Database) (query : string) (top_n : Z) (w w' : world) :
  fst (tf_idf_rank db query top_n w) = fst (tf_idf_rank db query top_n w')
  /\ fst (tf_idf_rank db query top_n (snd (tf_idf_rank db query top_n w)))
     = fst (tf_idf_rank db query top_n w).
Proof. split; apply tf_idf_rank_any_world. Qed.

(** ** Runs of the embedding on sample inputs *)

Example lower_run : PyStr.lower "Machine-Learning 42" = "machine-learning 42".
Proof. reflexivity. Qed.

Example strip_run : PyStr.strip "  a b   " = "a b".
Proof. reflexivity. Qed.

Example split_run : PyStr.split "," "a, b,,c" = ["a"; " b"; ""; "c"].
Proof. reflexivity. Qed.

Example replace_run :
  PyStr.replace "mailto:" "" "mailto:x@y.zmailto:" = "x@y.z".
Proof. reflexivity. Qed.

Example contains_run :
  PyStr.contains "obj" "an object" = true
  /\ PyStr.contains "x" "" = false
  /\ PyStr.contains "" "" = true.
Proof. repeat split. Qed.

Example parse_keywords_run :
  parse_keywords " robotics, control ,, machine learning ,"
  = ["robotics"; "control"; "machine learning"].
Proof. reflexivity. Qed.

Example tokens_run :
  Vectorizer.tokens_from (PyStr.lower (Profile_str Fixture.ada)) ""
  = ["src"; "profile"; "profile"; "object"; "at"; "0x7f378baba210"].
Proof. vm_compute. reflexivity. Qed.

Example sort_reverse_run :
  Py.sort_reverse snd [("a", 1); ("b", 3); ("c", 1); ("d", 3); ("e", 0)]
  = [("b", 3); ("d", 3); ("a", 1); ("c", 1); ("e", 0)].
Proof. reflexivity. Qed.

Example slice_to_run :
  Py.slice_to (-2) [1; 2; 3; 4; 5] = [1; 2; 3]
  /\ Py.slice_to 2 [1; 2; 3; 4; 5] = [1; 2]
  /\ Py.slice_to 9 [1; 2; 3] = [1; 2; 3]
  /\ Py.slice_to (-9) [1; 2; 3] = [].
Proof. repeat split. Qed.

Example argsort_run :
  @Np.argsort binary64 [0.5%float; 0.25%float; 0.5%float; 0%float; 0.25%float]
  = [3; 1; 4; 0; 2].
Proof. vm_compute. reflexivity. Qed.

Example expansion_after_two_retries :
  let endpoint : Endpoint :=
    fun n _ => if Nat.ltb n 2 then Completion [Some ""]
               else Completion [Some "robotics, control"] in
  @query_to_keywords endpoint "robots" 0 3 0 = (["robotics"; "control"], 3).
Proof. reflexivity. Qed.

Example contact_fallback_run :
  get_main_contact
    (Soup.Tag "[document]" []
       [Soup.Tag "p" [("class", "box contact-email")]
          [Soup.NavigableString " a.turing@imperial.ac.uk "]])
  = "a.turing@imperial.ac.uk"
  /\ get_main_contact (Soup.Tag "[document]" [] []) = "N/A".
Proof. split; reflexivity. Qed.

(** * Further properties of the two files *)

(** ** White space *)

Lemma lstrip_length (s : string) :
  String.length (PyStr.lstrip s) <= String.length s.
Proof.
  induction s as [|c t IH]; simpl; [lia|].
  destruct (PyStr.is_space c); simpl; lia.
Qed.

Lemma lstrip_head (c : ascii) (t : string) :
  PyStr.is_space c = false -> PyStr.lstrip (String c t) = String c t.
Proof. intros H. simpl. now rewrite H. Qed.

Lemma rstrip_idempotent (s : string) :
  PyStr.rstrip (PyStr.rstrip s) = PyStr.rstrip s.
Proof.
  induction s as [|c t IH]; simpl; [reflexivity|].
  destruct (PyStr.rstrip t) as [|c' t'] eqn:Ht.
  - destruct (PyStr.is_space c) eqn:Hc; simpl; [reflexivity | now rewrite Hc].
  - simpl in *. now rewrite IH.
Qed.

Lemma lstrip_rstrip (s : string) :
  PyStr.lstrip s = s -> PyStr.lstrip (PyStr.rstrip s) = PyStr.rstrip s.
Proof.
  destruct s as [|c t]; [reflexivity|]. intros H.
  assert (Hc : PyStr.is_space c = false).
  { simpl in H. destruct (PyStr.is_space c); [|reflexivity].
    pose proof (lstrip_length t) as Hlen. rewrite H in Hlen. simpl in Hlen. lia. }
  simpl. destruct (PyStr.rstrip t); [rewrite Hc|]; now apply lstrip_head.
Qed.

Lemma lstrip_idempotent (s : string) :
  PyStr.lstrip (PyStr.lstrip s) = PyStr.lstrip s.
Proof.
  induction s as [|c t IH]; simpl; [reflexivity|].
  destruct (PyStr.is_space c) eqn:Hc; [exact IH | now apply lstrip_head].
Qed.

Lemma strip_idempotent (s : string) :
  PyStr.strip (PyStr.strip s) = PyStr.strip s.
Proof.
  unfold PyStr.strip.
  rewrite lstrip_rstrip by apply lstrip_idempotent.
  apply rstrip_idempotent.
Qed.

(** ** The parse tree *)

Lemma node_induction (Q : Soup.node -> Prop) :
  (forall s, Q (Soup.NavigableString s)) ->
  (forall name attrs cs, Forall Q cs -> Q (Soup.Tag name attrs cs)) ->
  forall n, Q n.
Proof.
  intros Hs Ht. fix IH 1. intros [s | name attrs cs].
  - apply Hs.
  - apply Ht. induction cs as [|c cs IHcs]; constructor; [apply IH | exact IHcs].
Qed.

Lemma descendants_in_nodes (n : Soup.node) :
  forall ancestors,
    map snd (Bs4.descendants_in ancestors n) = Soup.descendants n.
Proof.
  induction n as [s | name attrs cs IH] using node_induction; intros ancestors;
    [reflexivity|].
  simpl.
  generalize (Soup.Tag name attrs cs :: ancestors) as anc. intros anc.
  induction IH as [|c cs Hc _ IHcs]; simpl; [reflexivity|].
  rewrite map_app, Hc, IHcs. reflexivity.
Qed.

Lemma select_one_none (test : Soup.node -> bool) (soup : Soup.node) :
  Forall (fun n => test n = false) (Soup.descendants soup) ->
  Soup.select_one test soup = None.
Proof.
  intros H. unfold Soup.select_one.
  destruct (find test (Soup.descendants soup)) as [n|] eqn:Hfind; [|reflexivity].
  apply find_some in Hfind. destruct Hfind as [Hin Htest].
  rewrite Forall_forall in H. rewrite (H n Hin) in Htest. discriminate.
Qed.

Lemma select_none (last : Bs4.compound) (above : list Bs4.compound)
    (soup : Soup.node) :
  Forall (fun n => Bs4.compound_matches last n = false) (Soup.descendants soup) ->
  Bs4.select last above soup = [].
Proof.
  intros H. unfold Bs4.select.
  rewrite <- (descendants_in_nodes soup []) in H. rewrite Forall_map in H.
  induction H as [|p l Hp _ IH]; simpl; [reflexivity|].
  rewrite Hp. simpl. exact IH.
Qed.

(** ** Field extraction *)

Lemma unmarked_has_id (i : string) (n : Soup.node) :
  unmarked n = true -> Bs4.has_id i n = false.
Proof.
  destruct n as [s | name attrs cs]; [reflexivity|].
  unfold unmarked, Bs4.has_id. simpl.
  destruct (Soup.lookup "id" attrs); [|reflexivity].
  rewrite andb_false_r. discriminate.
Qed.

Lemma unmarked_has_class (c : string) (n : Soup.node) :
  unmarked n = true -> Soup.has_class c n = false.
Proof.
  destruct n as [s | name attrs cs]; [reflexivity|].
  unfold unmarked. simpl.
  destruct (Soup.lookup "class" attrs); [|reflexivity].
  rewrite andb_false_r. discriminate.
Qed.

Lemma unmarked_names (n : Soup.node) :
  unmarked n = true ->
  Bs4.has_name "h1" n = false /\ Bs4.has_name "a" n = false
  /\ Bs4.has_name "p" n = false.
Proof.
  destruct n as [s | name attrs cs]; [repeat split|].
  unfold unmarked. simpl. intros H.
  repeat (apply andb_prop in H; destruct H as [H ?]).
  repeat split; now apply negb_true_iff.
Qed.

Lemma unmarked_mail_link (n : Soup.node) :
  unmarked n = true -> Soup.is_mail_link n = false.
Proof.
  intros H. destruct (unmarked_names n H) as (_ & Ha & _).
  destruct n as [s | name attrs cs]; [reflexivity|].
  simpl in *. now rewrite Ha.
Qed.

Lemma unmarked_by_tag (t : string) (n : Soup.node) :
  Bs4.has_name t n = false -> Bs4.compound_matches (Bs4.by_tag t) n = false.
Proof.
  intros H. unfold Bs4.compound_matches, Bs4.by_tag. simpl. rewrite H.
  now rewrite andb_false_r.
Qed.

Lemma region_texts_none (ids : list string) (soup : Soup.node) :
  Forall (fun n => forall i, In i ids -> Bs4.has_id i n = false)
    (Soup.descendants soup) ->
  region_texts ids soup = [].
Proof.
  intros H. unfold region_texts.
  induction ids as [|i ids IH]; simpl; [reflexivity|].
  rewrite select_one_none.
  - apply IH. eapply Forall_impl; [|exact H]. simpl. intros n Hn j Hj.
    apply Hn. now right.
  - eapply Forall_impl; [|exact H]. simpl. intros n Hn. apply Hn. now left.
Qed.

(** X1. A document none of whose nodes carries a marker (no [h1], [a] or
    [p], no [id], no [class]) is extracted to the defaults of the four
    text fields, to empty lists, and to the empty string for the summary,
    which has no default of its own. *)
Theorem get_main_of_unmarked_document (soup : Soup.node) :
  forallb unmarked (Soup.descendants soup) = true ->
  get_main soup = mkData "N/A" "N/A" "N/A" "N/A" [] "" [].
Proof.
  intros H. rewrite forallb_forall in H. rewrite <- Forall_forall in H.
  assert (Hid : forall i, Forall (fun n => Bs4.has_id i n = false)
                            (Soup.descendants soup)).
  { intros i. eapply Forall_impl; [|exact H]. apply unmarked_has_id. }
  assert (Hclass : forall c, Soup.select_one (Soup.has_class c) soup = None).
  { intros c. apply select_one_none. eapply Forall_impl; [|exact H].
    apply unmarked_has_class. }
  assert (Hregions : forall ids, region_texts ids soup = []).
  { intros ids. apply region_texts_none. eapply Forall_impl; [|exact H].
    simpl. intros n Hn i _. now apply unmarked_has_id. }
  assert (Hselect : forall t above,
             t = "a" \/ t = "p" -> Bs4.select (Bs4.by_tag t) above soup = []).
  { intros t above Ht. apply select_none. eapply Forall_impl; [|exact H].
    simpl. intros n Hn. apply unmarked_by_tag.
    destruct (unmarked_names n Hn) as (_ & Ha & Hp).
    now destruct Ht as [-> | ->]. }
  unfold get_main. f_equal.
  - unfold get_main_name. rewrite Hregions. simpl.
    rewrite select_one_none, Hclass; [reflexivity|].
    eapply Forall_impl; [|exact H]. intros n Hn. now apply unmarked_names.
  - unfold get_main_department. now rewrite Hregions, Hclass.
  - unfold get_main_contact, contact_from_mail_link, contact_from_container.
    rewrite select_one_none, Hclass; [reflexivity|].
    eapply Forall_impl; [|exact H]. apply unmarked_mail_link.
  - unfold get_main_location. now rewrite Hregions, Hclass.
  - unfold get_main_links, Bs4.select_linklist. rewrite Hselect; auto.
  - unfold get_main_summary, Bs4.select_custom_content. rewrite Hselect; auto.
  - unfold get_main_publications, Bs4.select_latest_pubs. rewrite Hselect; auto.
Qed.

Lemma get_main_of_unmarked_document_witness :
  let soup :=
    Soup.Tag "[document]" []
      [Soup.Tag "html" []
         [Soup.Tag "body" []
            [Soup.Tag "div" [("style", "color: red")]
               [Soup.NavigableString "Page not found"]]]] in
  forallb unmarked (Soup.descendants soup) = true
  /\ get_main soup = mkData "N/A" "N/A" "N/A" "N/A" [] "" [].
Proof.
  intros soup.
  assert (H : forallb unmarked (Soup.descendants soup) = true) by reflexivity.
  split; [exact H | exact (get_main_of_unmarked_document soup H)].
Defined.

(** X2. Whatever the document, the extracted contact and every extracted
    publication are trimmed: stripping them again changes nothing. *)
Theorem contact_and_publications_trimmed (soup : Soup.node) :
  PyStr.strip (d_contact (get_main soup)) = d_contact (get_main soup)
  /\ Forall (fun pub => PyStr.strip pub = pub) (d_publications (get_main soup)).
Proof.
  split.
  - simpl. unfold get_main_contact, contact_from_mail_link,
      contact_from_container.
    destruct (Soup.select_one Soup.is_mail_link soup) as [a|]; simpl.
    + destruct (Soup.get "href" a) as [href|]; simpl;
        [apply strip_idempotent|].
      destruct (Soup.select_one (Soup.has_class "contact-email") soup); simpl;
        [apply strip_idempotent | reflexivity].
    + destruct (Soup.select_one (Soup.has_class "contact-email") soup); simpl;
        [apply strip_idempotent | reflexivity].
  - simpl. unfold get_main_publications. simpl.
    rewrite Forall_map. apply Forall_forall. intros pub _.
    apply strip_idempotent.
Qed.

(** X3. When all four banner regions are present, the name is their
    trimmed texts joined by single blanks in the order bannername,
    titlepart1, titlepart2, titlepart3, wherever they stand in the
    document; the heading and the profile-name container are not used. *)
Theorem name_of_four_regions (soup t0 t1 t2 t3 : Soup.node) :
  Soup.select_one (Bs4.has_id "bannername") soup = Some t0 ->
  Soup.select_one (Bs4.has_id "titlepart1") soup = Some t1 ->
  Soup.select_one (Bs4.has_id "titlepart2") soup = Some t2 ->
  Soup.select_one (Bs4.has_id "titlepart3") soup = Some t3 ->
  d_name (get_main soup)
  = (PyStr.strip (Soup.text t0) ++ " " ++ PyStr.strip (Soup.text t1) ++ " "
     ++ PyStr.strip (Soup.text t2) ++ " " ++ PyStr.strip (Soup.text t3))%string.
Proof.
  intros H0 H1 H2 H3. simpl. unfold get_main_name, region_texts. simpl.
  rewrite H0, H1, H2, H3. reflexivity.
Qed.

Lemma name_of_four_regions_witness :
  let region i s := Soup.Tag "span" [("id", i)] [Soup.NavigableString s] in
  let soup :=
    Soup.Tag "[document]" []
      [Soup.Tag "h1" [] [Soup.NavigableString "Staff"];
       region "titlepart3" " FRS";
       region "titlepart2" "Lovelace ";
       region "titlepart1" " Ada";
       region "bannername" "Professor"] in
  Soup.select_one (Bs4.has_id "bannername") soup = Some (region "bannername" "Professor")
  /\ Soup.select_one (Bs4.has_id "titlepart1") soup = Some (region "titlepart1" " Ada")
  /\ Soup.select_one (Bs4.has_id "titlepart2") soup = Some (region "titlepart2" "Lovelace ")
  /\ Soup.select_one (Bs4.has_id "titlepart3") soup = Some (region "titlepart3" " FRS")
  /\ d_name (get_main soup) = "Professor Ada Lovelace FRS".
Proof.
  intros region soup.
  do 4 (split; [reflexivity|]).
  exact (@name_of_four_regions soup _ _ _ _ eq_refl eq_refl eq_refl eq_refl).
Defined.

(** X4. Without any of the four banner regions, the name is the trimmed
    text of the first [h1] (be it empty); without an [h1], that of the
    first profile-name container; without that too, the default. *)
Theorem name_without_regions (soup : Soup.node) :
  (forall i, In i ["bannername"; "titlepart1"; "titlepart2"; "titlepart3"] ->
             Soup.select_one (Bs4.has_id i) soup = None) ->
  d_name (get_main soup)
  = match Soup.select_one (Bs4.has_name "h1") soup with
    | Some heading => PyStr.strip (Soup.text heading)
    | None =>
        match Soup.select_one (Soup.has_class "profile-name") soup with
        | Some container => PyStr.strip (Soup.text container)
        | None => "N/A"
        end
    end.
Proof.
  intros H. simpl. unfold get_main_name, region_texts. simpl.
  rewrite !H by (simpl; tauto). simpl.
  destruct (Soup.select_one (Bs4.has_name "h1") soup); [reflexivity|]. simpl.
  now destruct (Soup.select_one (Soup.has_class "profile-name") soup).
Qed.

Lemma name_without_regions_witness :
  let soup :=
    Soup.Tag "[document]" []
      [Soup.Tag "div" [("class", "profile-name")]
         [Soup.NavigableString "Ada Lovelace"];
       Soup.Tag "h1" [] []] in
  (forall i, In i ["bannername"; "titlepart1"; "titlepart2"; "titlepart3"] ->
             Soup.select_one (Bs4.has_id i) soup = None)
  /\ d_name (get_main soup) = "".
Proof.
  intros soup.
  assert (H : forall i,
             In i ["bannername"; "titlepart1"; "titlepart2"; "titlepart3"] ->
             Soup.select_one (Bs4.has_id i) soup = None).
  { intros i Hi. simpl in Hi.
    destruct Hi as [<- | [<- | [<- | [<- | []]]]]; reflexivity. }
  split; [exact H | exact (name_without_regions soup H)].
Defined.

(** ** [get_data] *)

Lemma dict_get_set (key k : string) (v : value) (d : dict) :
  dict_get k (dict_set key v d)
  = if String.eqb key k then Ok v else dict_get k d.
Proof.
  induction d as [|[k' v'] d IH]; simpl.
  - destruct (String.eqb key k); reflexivity.
  - destruct (String.eqb_spec k' key) as [-> | Hne]; simpl.
    + destruct (String.eqb key k); reflexivity.
    + rewrite IH. destruct (String.eqb_spec k' k) as [-> | Hne'];
        [|reflexivity].
      destruct (String.eqb_spec key k); [congruence | reflexivity].
Qed.

Lemma dict_set_keys (key : string) (v : value) (d : dict) :
  map fst (dict_set key v d)
  = if existsb (String.eqb key) (map fst d) then map fst d
    else map fst d ++ [key].
Proof.
  induction d as [|[k' v'] d IH]; simpl; [reflexivity|].
  rewrite (String.eqb_sym k' key).
  destruct (String.eqb key k'); simpl; [reflexivity|].
  rewrite IH. now destruct (existsb (String.eqb key) (map fst d)).
Qed.

Lemma dict_set_NoDup (key : string) (v : value) (d : dict) :
  NoDup (map fst d) -> NoDup (map fst (dict_set key v d)).
Proof.
  intros H. rewrite dict_set_keys.
  destruct (existsb (String.eqb key) (map fst d)) eqn:Hex; [exact H|].
  apply NoDup_app; [exact H | repeat constructor; easy |].
  intros k Hk [Heq | []]. subst k.
  assert (Hin : existsb (String.eqb key) (map fst d) = true).
  { apply existsb_exists. exists key. split; [exact Hk | apply String.eqb_refl]. }
  congruence.
Qed.

Lemma dict_get_error (key : string) (d : dict) (e : exn) :
  dict_get key d = Raise e -> e = KeyError /\ ~ In key (map fst d).
Proof.
  induction d as [|[k v] d IH]; simpl.
  - intros H. injection H as <-. now split.
  - destruct (String.eqb_spec k key) as [-> | Hne]; [discriminate|].
    intros H. destruct (IH H) as [-> Hnot]. split; [reflexivity|].
    intros [Heq | Hin]; [congruence | now apply Hnot].
Qed.

Lemma dict_get_missing (key : string) (d : dict) :
  ~ In key (map fst d) -> dict_get key d = Raise KeyError.
Proof.
  induction d as [|[k v] d IH]; simpl; [reflexivity|].
  intros H. destruct (String.eqb_spec k key) as [-> | Hne]; [tauto|].
  apply IH. tauto.
Qed.

Lemma dict_comprehension_unknown (source : dict) (args : list string)
    (acc : dict) (key : string) :
  In key args -> ~ In key (map fst source) ->
  dict_comprehension source args acc = Raise KeyError.
Proof.
  revert acc. induction args as [|k args IH]; intros acc Hin Hnot; [easy|].
  simpl. destruct (dict_get k source) as [v | e] eqn:Hget; simpl.
  - destruct Hin as [-> | Hin].
    + rewrite (dict_get_missing _ _ Hnot) in Hget. discriminate.
    + now apply IH.
  - apply dict_get_error in Hget. now destruct Hget as [-> _].
Qed.

(** X5. Asking [get_data] for a key that [__get_main] never stores raises
    [KeyError], whatever other keys are asked for with it; ['url'] is such
    a key. *)
Theorem get_data_unknown_key (d : ProfileData) (args : list string) (key : string) :
  In key args ->
  ~ In key ["name"; "department"; "contact"; "location"; "links"; "summary";
            "publications"] ->
  get_data (data_dict d) args = Raise KeyError.
Proof.
  intros Hin Hnot. unfold get_data.
  destruct args as [|k args]; [easy|].
  now rewrite (dict_comprehension_unknown (data_dict d) (k :: args) [] key Hin Hnot).
Qed.

Lemma get_data_unknown_key_witness :
  In "url" ["name"; "url"]
  /\ ~ In "url" ["name"; "department"; "contact"; "location"; "links";
                  "summary"; "publications"]
  /\ get_data (Profile_data Fixture.ada) ["name"; "url"] = Raise KeyError.
Proof.
  assert (Hin : In "url" ["name"; "url"]) by (simpl; tauto).
  assert (Hnot : ~ In "url" ["name"; "department"; "contact"; "location";
                             "links"; "summary"; "publications"]).
  { simpl. intros H. repeat (destruct H as [H | H]; [discriminate H|]). exact H. }
  split; [exact Hin|]. split; [exact Hnot|].
  exact (@get_data_unknown_key _ ["name"; "url"] "url" Hin Hnot).
Defined.

Lemma dict_comprehension_same_key (source : dict) (args : list string)
    (key : string) (v : value) :
  dict_get key source = Ok v ->
  Forall (fun k => k = key) args ->
  dict_comprehension source args [(key, v)] = Ok [(key, v)].
Proof.
  intros Hget Hall. induction Hall as [|k args -> _ IH]; simpl; [reflexivity|].
  rewrite Hget. simpl. now rewrite String.eqb_refl.
Qed.

(** X6. Asked for one stored key, once or several times over, [get_data]
    returns the value itself and not a dictionary. *)
Theorem get_data_single_key (data : dict) (args : list string)
    (key : string) (v : value) :
  dict_get key data = Ok v ->
  Forall (fun k => k = key) args ->
  get_data data (key :: args) = Ok (Bare v).
Proof.
  intros Hget Hall. unfold get_data. simpl. rewrite Hget. simpl.
  now rewrite (dict_comprehension_same_key data Hget Hall).
Qed.

Lemma get_data_single_key_witness :
  dict_get "contact" (Profile_data Fixture.ada)
  = Ok (Str "a.lovelace@imperial.ac.uk")
  /\ Forall (fun k => k = "contact") ["contact"; "contact"]
  /\ get_data (Profile_data Fixture.ada) ["contact"; "contact"; "contact"]
     = Ok (Bare (Str "a.lovelace@imperial.ac.uk")).
Proof.
  assert (Hall : Forall (fun k => k = "contact") ["contact"; "contact"]).
  { repeat constructor. }
  split; [reflexivity|]. split; [exact Hall|].
  exact (@get_data_single_key (Profile_data Fixture.ada) _ "contact" _
           eq_refl Hall).
Defined.

Lemma dict_comprehension_lookup (source : dict) (args : list string) :
  Forall (fun k => exists v, dict_get k source = Ok v) args ->
  forall acc,
  exists selected,
    dict_comprehension source args acc = Ok selected
    /\ (NoDup (map fst acc) -> NoDup (map fst selected))
    /\ forall k,
         dict_get k selected
         = if existsb (String.eqb k) args then dict_get k source
           else dict_get k acc.
Proof.
  induction 1 as [|k0 args [v0 Hk0] _ IH]; intros acc; simpl.
  - exists acc. repeat split; auto.
  - rewrite Hk0. simpl.
    destruct (IH (dict_set k0 v0 acc)) as (selected & -> & Hnd & Hget).
    exists selected. split; [reflexivity|]. split.
    + intros H. now apply Hnd, dict_set_NoDup.
    + intros k. rewrite Hget, dict_get_set.
      destruct (existsb (String.eqb k) args); [now rewrite orb_true_r|].
      rewrite orb_false_r, (String.eqb_sym k k0).
      destruct (String.eqb_spec k0 k) as [<- | _]; [now rewrite Hk0 | reflexivity].
Qed.

(** X7. Asked for stored keys of which two differ, [get_data] returns a
    dictionary without repeated keys in which every requested key has the
    value it has in the record, and no other key is present. *)
Theorem get_data_several_keys (data : dict) (args : list string)
    (k1 k2 : string) :
  Forall (fun k => exists v, dict_get k data = Ok v) args ->
  In k1 args -> In k2 args -> k1 <> k2 ->
  exists selected,
    get_data data args = Ok (Dict selected)
    /\ NoDup (map fst selected)
    /\ forall k,
         dict_get k selected
         = if existsb (String.eqb k) args then dict_get k data
           else Raise KeyError.
Proof.
  intros Hknown H1 H2 Hne.
  destruct (dict_comprehension_lookup data Hknown []) as (selected & Hsel & Hnd & Hget).
  exists selected. split; [|split; [apply Hnd; constructor | exact Hget]].
  unfold get_data. destruct args as [|a args]; [easy|]. rewrite Hsel. simpl.
  assert (Hin : forall k, In k (a :: args) -> exists v, dict_get k selected = Ok v).
  { intros k Hk. rewrite Hget.
    assert (Hex : existsb (String.eqb k) (a :: args) = true).
    { apply existsb_exists. exists k. split; [exact Hk | apply String.eqb_refl]. }
    rewrite Hex. rewrite Forall_forall in Hknown. now apply Hknown. }
  destruct (Hin k1 H1) as [v1 Hv1]. destruct (Hin k2 H2) as [v2 Hv2].
  destruct selected as [|[k v] [|entry rest]]; [discriminate | | reflexivity].
  simpl in Hv1, Hv2.
  destruct (String.eqb_spec k k1); [|discriminate].
  destruct (String.eqb_spec k k2); [|discriminate].
  congruence.
Qed.

Lemma get_data_several_keys_witness :
  let args := ["summary"; "name"; "summary"] in
  Forall (fun k => exists v, dict_get k (Profile_data Fixture.ada) = Ok v) args
  /\ In "summary" args /\ In "name" args /\ "summary" <> "name"
  /\ exists selected,
       get_data (Profile_data Fixture.ada) args = Ok (Dict selected)
       /\ NoDup (map fst selected)
       /\ forall k,
            dict_get k selected
            = if existsb (String.eqb k) args
              then dict_get k (Profile_data Fixture.ada)
              else Raise KeyError.
Proof.
  intros args.
  assert (Hknown : Forall (fun k => exists v,
                             dict_get k (Profile_data Fixture.ada) = Ok v) args).
  { repeat constructor; eexists; reflexivity. }
  assert (H1 : In "summary" args) by (simpl; tauto).
  assert (H2 : In "name" args) by (simpl; tauto).
  assert (Hne : "summary" <> "name") by discriminate.
  split; [exact Hknown|]. split; [exact H1|]. split; [exact H2|].
  split; [exact Hne|].
  exact (get_data_several_keys (Profile_data Fixture.ada) Hknown H1 H2 Hne).
Defined.

(** ** Keyword expansion, for every endpoint *)

Lemma query_to_keywords_requests {E : Endpoint}
    (query : string) (recursive recursive_max : Z) (requests : nat) :
  (if (recursive >? recursive_max)%Z then requests else S requests)
  <= snd (query_to_keywords query recursive recursive_max requests)
  /\ snd (query_to_keywords query recursive recursive_max requests)
     <= requests
        + (if (recursive >? recursive_max)%Z then 0
           else S (Z.to_nat (3 - recursive))).
Proof.
  funelim (query_to_keywords query recursive recursive_max requests);
    destruct (Z.gtb_spec recursive recursive_max); try lia; cbn [snd];
    try lia.
  match goal with
  | IH : _ /\ _ |- _ => destruct IH as [Hlow Hhigh]
  end.
  destruct (Z.gtb_spec (recursive + 1) 3); lia.
Qed.

(** X8. Whatever the endpoint answers, an expansion at depth [recursive]
    sends no request when the depth exceeds the bound, and otherwise at
    least one and at most [1 + max 0 (3 - recursive)]: at most four when
    it starts at depth 0, whatever bound it is given. *)
Theorem expansion_request_bound {E : Endpoint}
    (query : string) (recursive recursive_max : Z) (requests : nat) :
  (if (recursive >? recursive_max)%Z then requests else S requests)
  <= snd (query_to_keywords query recursive recursive_max requests)
  /\ snd (query_to_keywords query recursive recursive_max requests)
     <= requests
        + (if (recursive >? recursive_max)%Z then 0
           else S (Z.to_nat (3 - recursive))).
Proof. apply query_to_keywords_requests. Qed.

Lemma usable_after_retries {E : Endpoint} (query content : string)
    (choices : list (option string)) (retries : nat) :
  forall (recursive : Z) (requests : nat),
    (0 <= recursive)%Z ->
    (recursive + Z.of_nat retries <= 3)%Z ->
    (forall i, i < retries -> exists malformed,
        chat_completions_create (requests + i) query = Completion malformed
        /\ usable_content malformed = None) ->
    chat_completions_create (requests + retries) query = Completion choices ->
    usable_content choices = Some content ->
    query_to_keywords query recursive 3 requests
    = (parse_keywords content, requests + retries + 1).
Proof.
  induction retries as [|retries IH]; intros recursive requests Hr Hle Hbad Hgood Huse.
  - rewrite query_to_keywords_step.
    destruct (Z.gtb_spec recursive 3); [lia|].
    rewrite Nat.add_0_r in Hgood. rewrite Hgood, Huse. f_equal. lia.
  - rewrite query_to_keywords_step.
    destruct (Z.gtb_spec recursive 3); [lia|].
    destruct (Hbad 0) as (malformed & Hc & Hu); [lia|].
    rewrite Nat.add_0_r in Hc. rewrite Hc, Hu.
    rewrite (IH (recursive + 1)%Z (S requests)); try lia.
    + f_equal. lia.
    + intros i Hi. destruct (Hbad (S i)) as (m & Hm & Hmu); [lia|].
      exists m. split; [|exact Hmu]. rewrite <- Hm. f_equal. lia.
    + rewrite <- Hgood. f_equal. lia.
    + exact Huse.
Qed.

(** X9. When the first [retries] responses (at most three) hold no usable
    content and the next one does, the expansion returns the keywords
    parsed from that one and has sent [retries + 1] requests. *)
Theorem first_usable_response_is_parsed {E : Endpoint}
    (query content : string) (choices : list (option string))
    (retries requests : nat) :
  retries <= 3 ->
  (forall i, i < retries -> exists malformed,
      chat_completions_create (requests + i) query = Completion malformed
      /\ usable_content malformed = None) ->
  chat_completions_create (requests + retries) query = Completion choices ->
  usable_content choices = Some content ->
  query_to_keywords query 0 3 requests
  = (parse_keywords content, requests + retries + 1).
Proof.
  intros Hle Hbad Hgood Huse.
  apply usable_after_retries with (choices := choices); auto; lia.
Qed.

Lemma first_usable_response_is_parsed_witness :
  let endpoint : Endpoint :=
    fun n _ => if Nat.ltb n 2 then Completion [None]
               else Completion [Some "robotics, control"; Some "unused"] in
  2 <= 3
  /\ (forall i, i < 2 -> exists malformed,
        @chat_completions_create endpoint (0 + i) "robots" = Completion malformed
        /\ usable_content malformed = None)
  /\ @chat_completions_create endpoint (0 + 2) "robots"
     = Completion [Some "robotics, control"; Some "unused"]
  /\ usable_content [Some "robotics, control"; Some "unused"]
     = Some "robotics, control"
  /\ @query_to_keywords endpoint "robots" 0 3 0 = (["robotics"; "control"], 3).
Proof.
  intros endpoint.
  assert (Hle : 2 <= 3) by lia.
  assert (Hbad : forall i, i < 2 -> exists malformed,
             @chat_completions_create endpoint (0 + i) "robots"
             = Completion malformed
             /\ usable_content malformed = None).
  { intros i Hi. exists [None]. destruct i as [|[|i]]; [now split | now split | lia]. }
  split; [exact Hle|]. split; [exact Hbad|]. do 2 (split; [reflexivity|]).
  exact (@first_usable_response_is_parsed endpoint "robots" "robotics, control"
           [Some "robotics, control"; Some "unused"] 2 0 Hle Hbad eq_refl eq_refl).
Defined.

Lemma comma_in_cons (a : ascii) (t : string) :
  PyStr.contains "," (String a t) = Ascii.eqb "," a || PyStr.contains "," t.
Proof. simpl. now rewrite andb_true_r. Qed.

Lemma split_pieces_without_comma (s piece : string) :
  In piece (PyStr.split "," s) -> PyStr.contains "," piece = false.
Proof.
  revert piece. induction s as [|c t IH]; intros piece Hin.
  - destruct Hin as [<- | []]. reflexivity.
  - cbn [PyStr.split] in Hin. destruct (Ascii.eqb_spec c ",") as [-> | Hne].
    + destruct Hin as [<- | Hin]; [reflexivity | now apply IH].
    + destruct (PyStr.split "," t) as [|p rest].
      * destruct Hin as [<- | []]. rewrite comma_in_cons.
        destruct (Ascii.eqb_spec "," c); [congruence | reflexivity].
      * destruct Hin as [<- | Hin]; [|apply IH; now right].
        rewrite comma_in_cons, (IH p) by now left.
        destruct (Ascii.eqb_spec "," c); [congruence | reflexivity].
Qed.

Lemma lstrip_without_comma (s : string) :
  PyStr.contains "," s = false -> PyStr.contains "," (PyStr.lstrip s) = false.
Proof.
  induction s as [|c t IH]; [easy|]. intros H. cbn [PyStr.lstrip].
  destruct (PyStr.is_space c); [|exact H].
  rewrite comma_in_cons in H. apply orb_false_elim in H. now apply IH.
Qed.

Lemma rstrip_without_comma (s : string) :
  PyStr.contains "," s = false -> PyStr.contains "," (PyStr.rstrip s) = false.
Proof.
  induction s as [|c t IH]; [easy|]. intros H.
  rewrite comma_in_cons in H. apply orb_false_elim in H. destruct H as [Hc Ht].
  specialize (IH Ht). cbn [PyStr.rstrip].
  destruct (PyStr.rstrip t) as [|c' t'].
  - destruct (PyStr.is_space c); [reflexivity|].
    rewrite comma_in_cons, Hc. reflexivity.
  - rewrite comma_in_cons, Hc, IH. reflexivity.
Qed.

Lemma parse_keywords_well_formed (content : string) :
  Forall well_formed_keyword (parse_keywords content).
Proof.
  apply Forall_forall. intros keyword Hin. unfold parse_keywords in Hin.
  apply filter_In in Hin. destruct Hin as [Hin Hne].
  apply in_map_iff in Hin. destruct Hin as (piece & <- & Hpiece).
  repeat split.
  - intros Heq. rewrite Heq in Hne. discriminate.
  - apply strip_idempotent.
  - apply rstrip_without_comma, lstrip_without_comma.
    now apply split_pieces_without_comma with (s := content).
Qed.

(** X10. Whatever the endpoint answers, every keyword an expansion returns
    is non-empty, has no white space at either end and contains no
    comma. *)
Theorem expanded_keywords_well_formed {E : Endpoint}
    (query : string) (recursive recursive_max : Z) (requests : nat) :
  Forall well_formed_keyword
    (fst (query_to_keywords query recursive recursive_max requests)).
Proof.
  funelim (query_to_keywords query recursive recursive_max requests);
    cbn [fst]; try constructor; try assumption.
  apply parse_keywords_well_formed.
Qed.

(** ** The lexical ranking when the counts do not discriminate *)

Lemma filter_all {A} (f : A -> bool) (l : list A) :
  Forall (fun a => f a = true) l -> filter f l = l.
Proof.
  induction 1 as [|a l Ha _ IH]; simpl; [reflexivity|]. now rewrite Ha, IH.
Qed.

Lemma equal_counts_keep_order {P : Type} {R : Scorable P}
    (profiles : list P) (keywords : list string) (count : nat) :
  scores_without_error profiles ->
  Forall (fun p => hit_count keywords p = count) profiles ->
  rank_by_keywords profiles keywords = Ok profiles.
Proof.
  intros Hok Hcount.
  destruct (rank_by_keywords_spec keywords Hok)
    as (ranked & -> & _ & Hstable & Hperm).
  f_equal. specialize (Hstable count).
  rewrite (filter_all _ (l := profiles)) in Hstable.
  - rewrite <- Hstable. symmetry. apply filter_all.
    eapply Permutation_Forall; [symmetry; exact Hperm|].
    eapply Forall_impl; [|exact Hcount]. simpl. intros p Hp.
    now apply Nat.eqb_eq.
  - eapply Forall_impl; [|exact Hcount]. simpl. intros p Hp.
    now apply Nat.eqb_eq.
Qed.

(** X11. When no scoring raises and all records have the same hit count,
    the lexical ranker returns them in the order of the input; this is so
    in particular when there are no keywords. *)
Theorem rank_by_keywords_equal_counts {P : Type} {R : Scorable P}
    (profiles : list P) (keywords : list string) (count : nat) :
  scores_without_error profiles ->
  Forall (fun p => hit_count keywords p = count) profiles ->
  rank_by_keywords profiles keywords = Ok profiles
  /\ rank_by_keywords profiles [] = Ok profiles.
Proof.
  intros Hok Hcount. split.
  - now apply equal_counts_keep_order with (count := count).
  - apply equal_counts_keep_order with (count := 0); [exact Hok|].
    apply Forall_forall. intros p _. unfold hit_count.
    now destruct (py_str p).
Qed.

Lemma rank_by_keywords_equal_counts_witness :
  let profiles := [Fixture.grace; Fixture.ada; Fixture.alan] in
  scores_without_error profiles
  /\ Forall (fun p => hit_count ["profile"; "zebra"] p = 1) profiles
  /\ rank_by_keywords profiles ["profile"; "zebra"] = Ok profiles
  /\ rank_by_keywords profiles [] = Ok profiles.
Proof.
  intros profiles.
  assert (Hok : scores_without_error profiles).
  { repeat constructor; eexists; reflexivity. }
  assert (Hcount : Forall (fun p => hit_count ["profile"; "zebra"] p = 1) profiles).
  { repeat constructor. }
  split; [exact Hok|]. split; [exact Hcount|].
  exact (@rank_by_keywords_equal_counts Profile _ profiles
           ["profile"; "zebra"] 1 Hok Hcount).
Defined.

Lemma rank_by_keywords_no_keywords (profiles : list Profile) :
  rank_by_keywords profiles [] = Ok profiles.
Proof.
  apply equal_counts_keep_order with (count := 0).
  - apply Profile_scores_without_error.
  - apply Forall_forall. intros p _. reflexivity.
Qed.

(** ** The stages of a search *)

Section StageFacts.

Context {F : Float64} {L : Sklearn F} {E : Endpoint}.

Lemma simple_rank_world (db : Database) (query : string) (top_n : Z)
    (w : world) :
  exists ranked,
    simple_rank db query top_n w
    = (Ok ranked,
       mkWorld (snd (query_to_keywords query 0 3 (requests w))) (vectorizer w)).
Proof.
  unfold simple_rank, bind, expand_query, lift, ret.
  destruct (query_to_keywords query 0 3 (requests w)) as [keywords n].
  destruct (rank_by_keywords_spec keywords
              (Profile_scores_without_error (get_profiles db)))
    as (ranked & -> & _).
  now eexists.
Qed.

Lemma search_requests (db : Database) (query : string) (top_n : Z) (w : world) :
  requests (snd (search db query top_n w))
  = snd (query_to_keywords query 0 3 (requests w)).
Proof.
  unfold search. unfold bind at 1.
  destruct (simple_rank_world db query top_n w) as (ranked & ->).
  unfold bind, ret.
  match goal with
  | |- context [tf_idf_rank db query top_n ?w1] =>
      pose proof (tf_idf_rank_requests db query top_n w1) as Hreq;
      destruct (tf_idf_rank db query top_n w1) as [[r | e] w2]
  end; exact Hreq.
Qed.

End StageFacts.

(** X12. When the first request of the keyword expansion raises, the
    lexical stage returns the first [top_n] records of the collection in
    collection order (all but the last [-top_n] when [top_n] is negative)
    and has sent that one request. *)
Theorem simple_rank_after_transport_error {F : Float64} {E : Endpoint}
    (db : Database) (query : string) (top_n : Z) (w : @world F) :
  chat_completions_create (requests w) query = ApiError ->
  simple_rank db query top_n w
  = (Ok (Py.slice_to top_n (get_profiles db)),
     mkWorld (S (requests w)) (vectorizer w)).
Proof.
  intros H. unfold simple_rank, bind, expand_query, lift, ret.
  rewrite query_to_keywords_step, H. cbn [Z.gtb Z.compare].
  now rewrite rank_by_keywords_no_keywords.
Qed.

Lemma simple_rank_after_transport_error_witness :
  let db := mkDatabase [Fixture.ada; Fixture.alan; Fixture.grace] in
  let w : @world binary64 := mkWorld 7 None in
  @chat_completions_create Fixture.failing (requests w) "robotics" = ApiError
  /\ @simple_rank binary64 Fixture.failing db "robotics" 2 w
     = (Ok [Fixture.ada; Fixture.alan], mkWorld 8 None).
Proof.
  intros db w. split; [reflexivity|].
  exact (@simple_rank_after_transport_error binary64 Fixture.failing db
           "robotics" 2 w eq_refl).
Defined.

(** X13. Every search sends at least one and at most four requests to the
    endpoint, whatever the endpoint answers and whether or not the search
    raises; all of them are sent by the lexical stage. *)
Theorem search_sends_one_to_four_requests {F : Float64} {L : Sklearn F}
    {E : Endpoint} (db : Database) (query : string) (top_n : Z) (w : world) :
  requests w < requests (snd (search db query top_n w))
  /\ requests (snd (search db query top_n w)) <= requests w + 4
  /\ requests (snd (search db query top_n w))
     = requests (snd (simple_rank db query top_n w)).
Proof.
  rewrite search_requests.
  destruct (simple_rank_world db query top_n w) as (ranked & ->).
  cbn [snd requests].
  pose proof (query_to_keywords_requests query 0 3 (requests w)) as [Hlow Hhigh].
  cbn in Hlow, Hhigh. lia.
Qed.

(** ** The statistical ranking *)

Lemma sorted_indices_length {F : Float64} (scores : list float64) :
  List.length (sorted_indices scores) = List.length scores.
Proof.
  rewrite (Permutation_length (sorted_indices_perm scores)). apply length_seq.
Qed.

Lemma slice_to_length {A} (n : Z) (l : list A) :
  List.length (Py.slice_to n l)
  = if (n <? 0)%Z then List.length l - Z.to_nat (- n)
    else Nat.min (Z.to_nat n) (List.length l).
Proof.
  unfold Py.slice_to. destruct (n <? 0)%Z; rewrite length_firstn; lia.
Qed.

Lemma nth_error_all {A} (l : list A) :
  map (nth_error l) (seq 0 (List.length l)) = map Some l.
Proof.
  induction l as [|a l IH]; [reflexivity|].
  simpl. f_equal. rewrite <- seq_shift, map_map. exact IH.
Qed.

Lemma map_Some_injective {A} (l l' : list A) :
  map Some l = map Some l' -> l = l'.
Proof.
  revert l'. induction l as [|a l IH]; intros [|a' l'] H; try discriminate;
    [reflexivity|].
  injection H as -> H. f_equal. now apply IH.
Qed.

Lemma top_profiles_length {F : Float64} {P : Type}
    (profiles : list P) (scores : list float64) (top_n : Z) :
  List.length scores = List.length profiles ->
  exists ranked,
    top_profiles profiles scores top_n = Ok ranked
    /\ List.length ranked
       = (if (top_n <? 0)%Z then List.length profiles - Z.to_nat (- top_n)
          else Nat.min (Z.to_nat top_n) (List.length profiles))
    /\ forall p, In p ranked -> In p profiles.
Proof.
  intros Hlen.
  destruct (@top_profiles_by_index F P profiles scores top_n)
    as (ranked & Hok & Hmap); [lia|].
  exists ranked. split; [exact Hok|]. split.
  - apply (f_equal (@List.length _)) in Hmap. rewrite !length_map in Hmap.
    rewrite Hmap. unfold top_profile_indices.
    now rewrite slice_to_length, sorted_indices_length, Hlen.
  - intros p Hp. apply (in_map Some) in Hp. rewrite Hmap in Hp.
    apply in_map_iff in Hp. destruct Hp as (i & Hi & _).
    now apply nth_error_In with (n := i).
Qed.

(** X14. With one score per record, the statistical ranking never fails
    on an index and returns [min top_n n] of the [n] records when [top_n]
    is not negative, and [n + top_n] of them (none if that is negative)
    when it is. *)
Theorem top_profiles_size {F : Float64} {P : Type}
    (profiles : list P) (scores : list float64) (top_n : Z) :
  List.length scores = List.length profiles ->
  exists ranked,
    top_profiles profiles scores top_n = Ok ranked
    /\ List.length ranked
       = if (top_n <? 0)%Z then List.length profiles - Z.to_nat (- top_n)
         else Nat.min (Z.to_nat top_n) (List.length profiles).
Proof.
  intros Hlen.
  destruct (top_profiles_length profiles scores top_n Hlen)
    as (ranked & Hok & Hsize & _).
  now exists ranked.
Qed.

Lemma top_profiles_size_witness :
  let profiles := [Fixture.ada; Fixture.alan; Fixture.grace] in
  let scores := [0.5%float; 0%float; 0.25%float] in
  List.length scores = List.length profiles
  /\ exists ranked,
       @top_profiles binary64 _ profiles scores (-1) = Ok ranked
       /\ List.length ranked = 2.
Proof.
  intros profiles scores.
  assert (Hlen : List.length scores = List.length profiles) by reflexivity.
  split; [exact Hlen|].
  exact (@top_profiles_size binary64 Profile profiles scores (-1) Hlen).
Defined.

(** X15. With one score per record and [top_n] at least the number of
    records, the statistical ranking is a permutation of the collection:
    every record is returned, as often as it occurs. *)
Theorem top_profiles_complete {F : Float64} {P : Type}
    (profiles : list P) (scores : list float64) (top_n : Z) :
  List.length scores = List.length profiles ->
  (Z.of_nat (List.length profiles) <= top_n)%Z ->
  exists ranked,
    top_profiles profiles scores top_n = Ok ranked
    /\ Permutation ranked profiles.
Proof.
  intros Hlen Htop.
  destruct (@top_profiles_by_index F P profiles scores top_n)
    as (ranked & Hok & Hmap); [lia|].
  exists ranked. split; [exact Hok|].
  assert (Hall : top_profile_indices scores top_n = sorted_indices scores).
  { unfold top_profile_indices, Py.slice_to.
    destruct (Z.ltb_spec top_n 0); [lia|].
    apply firstn_all2. rewrite sorted_indices_length. lia. }
  rewrite Hall in Hmap.
  assert (Hperm : Permutation (map Some ranked) (map Some profiles)).
  { rewrite Hmap, <- nth_error_all, <- Hlen.
    apply Permutation_map, sorted_indices_perm. }
  apply Permutation_map_inv in Hperm.
  destruct Hperm as (l & Heq & Hperm).
  apply map_Some_injective in Heq. subst l. now symmetry.
Qed.

Lemma top_profiles_complete_witness :
  let profiles := [Fixture.ada; Fixture.alan; Fixture.grace] in
  let scores := [0.25%float; 0.5%float; 0.25%float] in
  List.length scores = List.length profiles
  /\ (Z.of_nat (List.length profiles) <= 25)%Z
  /\ exists ranked,
       @top_profiles binary64 _ profiles scores 25 = Ok ranked
       /\ Permutation ranked profiles.
Proof.
  intros profiles scores.
  assert (Hlen : List.length scores = List.length profiles) by reflexivity.
  assert (Htop : (Z.of_nat (List.length profiles) <= 25)%Z) by (simpl; lia).
  split; [exact Hlen|]. split; [exact Htop|].
  exact (@top_profiles_complete binary64 Profile profiles scores 25 Hlen Htop).
Defined.

(** ** The ranking is in descending order of score *)

Section Descending.

Context {A : Type} (lt : A -> A -> bool) (ok : A -> Prop).

Hypothesis lt_asym :
  forall a b, ok a -> ok b -> lt a b = true -> lt b a = false.
Hypothesis not_lt_trans :
  forall a b c, ok a -> ok b -> ok c ->
                lt a b = false -> lt b c = false -> lt a c = false.

Lemma place_descending (x : A) (acc : list A) :
  ok x -> Forall ok acc ->
  StronglySorted (fun a b => lt a b = false) acc ->
  StronglySorted (fun a b => lt a b = false) (Py.place lt x acc).
Proof.
  intros Hx Hok Hs. induction Hs as [|k ks Hs IH Hk]; simpl.
  - repeat constructor.
  - inversion Hok as [|? ? Hokk Hoks]; subst.
    destruct (lt x k) eqn:Hlt.
    + constructor; [now apply IH|].
      eapply Permutation_Forall; [symmetry; apply place_perm|].
      constructor; [now apply lt_asym | exact Hk].
    + constructor; [now constructor|].
      constructor; [exact Hlt|].
      rewrite Forall_forall in *. intros b Hb.
      apply not_lt_trans with (b := k); auto.
Qed.

Lemma fold_place_descending (l acc : list A) :
  Forall ok l -> Forall ok acc ->
  StronglySorted (fun a b => lt a b = false) acc ->
  StronglySorted (fun a b => lt a b = false)
    (fold_left (fun c x => Py.place lt x c) l acc).
Proof.
  revert acc. induction l as [|x l IH]; intros acc Hl Hacc Hs; simpl;
    [exact Hs|].
  inversion Hl as [|? ? Hx Hl']; subst.
  apply IH; [exact Hl' | | now apply place_descending].
  eapply Permutation_Forall; [symmetry; apply place_perm|]. now constructor.
Qed.

End Descending.

Lemma sorted_ranks_before {A} (R : A -> A -> Prop) (a b : A) (l : list A) :
  StronglySorted R l -> ranks_before a b l -> R a b.
Proof.
  intros Hs (l1 & l2 & l3 & ->).
  induction l1 as [|c l1 IH]; simpl in Hs.
  - apply StronglySorted_inv in Hs. destruct Hs as [_ Hall].
    rewrite Forall_forall in Hall. apply Hall, in_or_app. right. now left.
  - apply StronglySorted_inv in Hs. now apply IH.
Qed.

Lemma in_enumerate {A} (l : list A) (start i : nat) (a : A) :
  In (i, a) (combine (seq start (List.length l)) l) ->
  start <= i /\ nth_error l (i - start) = Some a.
Proof.
  revert start. induction l as [|x l IH]; intros start Hin; [easy|].
  simpl in Hin. destruct Hin as [Heq | Hin].
  - injection Heq as <- <-. rewrite Nat.sub_diag. split; [lia | reflexivity].
  - apply IH in Hin. destruct Hin as [Hle Hnth]. split; [lia|].
    replace (i - start) with (S (i - S start)) by lia. exact Hnth.
Qed.

Lemma weak_order_on_spec {F : Float64} (l : list float64) :
  weak_order_on l = true ->
  (forall a b, In a l -> In b l -> less a b = true -> less b a = false)
  /\ (forall a b c, In a l -> In b l -> In c l ->
        less a b = false -> less b c = false -> less a c = false).
Proof.
  unfold weak_order_on. intros H. rewrite forallb_forall in H. split.
  - intros a b Ha Hb Hab. specialize (H a Ha). rewrite forallb_forall in H.
    specialize (H b Hb). apply andb_prop in H. destruct H as [H _].
    rewrite Hab in H. simpl in H. now apply negb_true_iff.
  - intros a b c Ha Hb Hc Hab Hbc. specialize (H a Ha).
    rewrite forallb_forall in H. specialize (H b Hb).
    apply andb_prop in H. destruct H as [_ H].
    rewrite forallb_forall in H. specialize (H c Hc).
    rewrite Hab, Hbc in H. simpl in H. now apply negb_true_iff.
Qed.

Lemma ranking_sorted {F : Float64} (scores : list float64) (top_n : Z)
    (i j : nat) (si sj : float64) :
  weak_order_on scores = true ->
  ranks_before i j (top_profile_indices scores top_n) ->
  nth_error scores i = Some si ->
  nth_error scores j = Some sj ->
  less si sj = false.
Proof.
  intros Horder Hbefore Hi Hj.
  destruct (weak_order_on_spec scores Horder) as [Hasym Htrans].
  set (pairs := combine (seq 0 (List.length scores)) scores).
  set (by_score := fun a b : nat * float64 => less (snd a) (snd b)).
  set (sorted := fold_left (fun c x => Py.place by_score x c) pairs []).
  assert (Hpairs : Forall (fun p => In (snd p) scores) pairs).
  { apply Forall_forall. intros [k s] Hk. simpl.
    apply in_enumerate in Hk. destruct Hk as [_ Hk].
    now apply nth_error_In in Hk. }
  assert (Hsorted : StronglySorted (fun a b => by_score a b = false) sorted).
  { apply fold_place_descending with (ok := fun p => In (snd p) scores);
      try assumption; try constructor.
    - intros a b Ha Hb. apply Hasym; assumption.
    - intros a b c Ha Hb Hc. apply Htrans; assumption. }
  assert (Hscore : forall p, In p sorted ->
                             nth_error scores (fst p) = Some (snd p)).
  { intros [k s] Hp. simpl.
    assert (Hin : In (k, s) pairs).
    { pose proof (fold_place_perm by_score pairs []) as Hperm.
      rewrite app_nil_r in Hperm.
      eapply Permutation_in; [exact Hperm | exact Hp]. }
    apply in_enumerate in Hin. destruct Hin as [_ Hin].
    now rewrite Nat.sub_0_r in Hin. }
  unfold top_profile_indices in Hbefore.
  destruct (slice_to_prefix top_n (sorted_indices scores)) as [k Hk].
  rewrite Hk, sorted_indices_fold in Hbefore. fold pairs by_score sorted in Hbefore.
  rewrite firstn_map in Hbefore.
  destruct Hbefore as (l1 & l2 & l3 & Heq).
  apply map_eq_app in Heq. destruct Heq as (m1 & r1 & Hcut & _ & Heq).
  apply map_eq_cons in Heq. destruct Heq as (pi & r2 & -> & Hfi & Heq).
  apply map_eq_app in Heq. destruct Heq as (m2 & r3 & -> & _ & Heq).
  apply map_eq_cons in Heq. destruct Heq as (pj & m3 & -> & Hfj & _).
  assert (Hwhole : sorted = m1 ++ pi :: m2 ++ pj :: (m3 ++ skipn k sorted)).
  { rewrite <- (firstn_skipn k sorted) at 1. rewrite Hcut.
    rewrite <- !app_assoc. simpl. now rewrite <- !app_assoc. }
  assert (Hrel : by_score pi pj = false).
  { apply (sorted_ranks_before Hsorted). rewrite Hwhole. now eexists _, _, _. }
  assert (Hpi : In pi sorted).
  { rewrite Hwhole. apply in_or_app. right. now left. }
  assert (Hpj : In pj sorted).
  { rewrite Hwhole. apply in_or_app. right. right.
    apply in_or_app. right. now left. }
  apply Hscore in Hpi, Hpj. rewrite Hfi, Hi in Hpi. rewrite Hfj, Hj in Hpj.
  injection Hpi as ->. injection Hpj as ->. exact Hrel.
Qed.

(** X16. When numpy's order on the scores at hand is a strict weak order
    (as it is on floating-point numbers), the statistical ranking is in
    descending order of score: no record stands before a record with a
    strictly greater score. *)
Theorem ranking_descending {F : Float64} (scores : list float64) (top_n : Z)
    (i j : nat) (si sj : float64) :
  weak_order_on scores = true ->
  ranks_before i j (top_profile_indices scores top_n) ->
  nth_error scores i = Some si ->
  nth_error scores j = Some sj ->
  less si sj = false.
Proof. apply ranking_sorted. Qed.

Lemma ranking_descending_witness :
  let scores := [0.25%float; 0.75%float; 0%float; 0.5%float] in
  @weak_order_on binary64 scores = true
  /\ ranks_before 1 0 (@top_profile_indices binary64 scores 3)
  /\ nth_error scores 1 = Some 0.75%float
  /\ nth_error scores 0 = Some 0.25%float
  /\ np_less 0.75%float 0.25%float = false.
Proof.
  intros scores.
  assert (Horder : @weak_order_on binary64 scores = true) by (vm_compute; reflexivity).
  assert (Hbefore : ranks_before 1 0 (@top_profile_indices binary64 scores 3)).
  { exists [], [3], []. vm_compute. reflexivity. }
  split; [exact Horder|]. split; [exact Hbefore|]. do 2 (split; [reflexivity|]).
  exact (@ranking_descending binary64 scores 3 1 0 0.75%float 0.25%float
           Horder Hbefore eq_refl eq_refl).
Defined.

(** ** Index sorts that meet numpy's contract *)

(** The insertion pass is one of them, wherever numpy's order on the
    scores is a strict weak order. *)
Lemma np_argsort_ascending {F : Float64} (scores : list float64) :
  weak_order_on scores = true ->
  ascending_index_sort Np.argsort scores.
Proof.
  intros Horder. split.
  - rewrite (Permutation_rev (Np.argsort scores)).
    apply sorted_indices_perm.
  - intros i j si sj Hbefore Hi Hj.
    apply ranking_sorted
      with (scores := scores) (top_n := Z.of_nat (List.length scores))
           (i := j) (j := i); try assumption.
    unfold top_profile_indices, Py.slice_to.
    destruct (Z.ltb_spec (Z.of_nat (List.length scores)) 0); [lia|].
    rewrite firstn_all2 by (rewrite sorted_indices_length; lia).
    now apply ranks_before_rev.
Qed.

Lemma ranking_reverses_index_sort_witness :
  let profiles := [Fixture.ada; Fixture.alan; Fixture.grace; Fixture.ada] in
  let scores := [0.5%float; 0%float; 0.5%float; 0%float] in
  @ascending_index_sort binary64 Np.argsort scores
  /\ List.length scores = List.length profiles
  /\ exists ranked,
       @top_profiles_by binary64 _ Np.argsort profiles scores 25 = Ok ranked
       /\ map Some ranked
          = map (nth_error profiles)
              (@top_profile_indices_by binary64 Np.argsort scores 25)
       /\ (forall i j,
             In j (@top_profile_indices_by binary64 Np.argsort scores 25) ->
             ranks_before i j
               (@top_profile_indices_by binary64 Np.argsort scores 25)
             <-> ranks_before j i (@Np.argsort binary64 scores))
       /\ (forall i j si sj,
             ranks_before i j
               (@top_profile_indices_by binary64 Np.argsort scores 25) ->
             nth_error scores i = Some si ->
             nth_error scores j = Some sj ->
             np_less si sj = false).
Proof.
  intros profiles scores.
  assert (Hsort : @ascending_index_sort binary64 Np.argsort scores).
  { apply np_argsort_ascending. vm_compute. reflexivity. }
  assert (Hlen : List.length scores = List.length profiles) by reflexivity.
  split; [exact Hsort|]. split; [exact Hlen|].
  exact (@ranking_reverses_index_sort binary64 Profile Np.argsort profiles
           scores 25 Hsort Hlen).
Defined.

(** The contract leaves the order of equal scores open: on two scores of
    0.0 the insertion pass and the same pass read backwards both meet it,
    and the ranker returns the second record first with the one and the
    first record first with the other. *)
Lemma equal_scores_order_left_open :
  let scores := [0%float; 0%float] in
  let backwards := fun v : list float => rev (@Np.argsort binary64 v) in
  @ascending_index_sort binary64 Np.argsort scores
  /\ @ascending_index_sort binary64 backwards scores
  /\ @top_profile_indices_by binary64 Np.argsort scores 2 = [1; 0]
  /\ @top_profile_indices_by binary64 backwards scores 2 = [0; 1].
Proof.
  intros scores backwards.
  assert (Hzero : forall i s, nth_error scores i = Some s -> s = 0%float).
  { intros [|[|i]] s H; simpl in H;
      [now injection H | now injection H | destruct i; discriminate]. }
  split; [|split; [|split; reflexivity]].
  - apply np_argsort_ascending. reflexivity.
  - split.
    + unfold backwards. rewrite <- Permutation_rev.
      apply (@np_argsort_ascending binary64 scores). reflexivity.
    + intros i j si sj _ Hi Hj.
      apply Hzero in Hi, Hj. subst si sj. reflexivity.
Qed.

(** ** A search over a collection that is not empty *)

Lemma lower_app (a b : string) :
  PyStr.lower (a ++ b) = (PyStr.lower a ++ PyStr.lower b)%string.
Proof. induction a as [|c a IH]; simpl; [reflexivity | now rewrite IH]. Qed.

Lemma repr_has_profile_token (p : Profile) :
  In "profile" (Vectorizer.tokens_from (PyStr.lower (Profile_str p)) "").
Proof.
  unfold Profile_str. rewrite lower_app.
  generalize (PyStr.lower (PyStr.hex_digits (id_ p) ++ ">")). intros rest.
  simpl. right. now left.
Qed.

Section NonEmptyCollection.

Context {F : Float64} {L : Sklearn F}.

Lemma vocabulary_of_profiles (p : Profile) (ps : list Profile) :
  existsb (String.eqb "profile") english_stop_words = false ->
  In "profile" (Vectorizer.vocabulary_of (map Profile_str (p :: ps))).
Proof.
  intros Hstop. unfold Vectorizer.vocabulary_of.
  eapply Permutation_in; [symmetry; apply stable_sort_perm|].
  apply nodup_In. simpl. apply in_or_app. left.
  unfold Vectorizer.analyze. apply filter_In.
  split; [apply repr_has_profile_token | now rewrite Hstop].
Qed.

Lemma tf_idf_rank_on_profiles (db : Database) (query : string) (top_n : Z)
    (w : world) :
  shapes_kept L ->
  existsb (String.eqb "profile") english_stop_words = false ->
  get_profiles db <> [] ->
  exists ranked,
    fst (tf_idf_rank db query top_n w) = Ok ranked
    /\ List.length ranked
       = (if (top_n <? 0)%Z
          then List.length (get_profiles db) - Z.to_nat (- top_n)
          else Nat.min (Z.to_nat top_n) (List.length (get_profiles db)))
    /\ forall p, In p ranked -> In p (get_profiles db).
Proof.
  intros [Hrows Hcos] Hstop Hdb.
  destruct (get_profiles db) as [|p ps] eqn:Hprofiles; [congruence|].
  pose proof (vocabulary_of_profiles p ps Hstop) as Hvoc.
  unfold tf_idf_rank, bind, lift, compute_tfidf_matrix, compute_query_vector,
    Vectorizer.fit_transform, Vectorizer.transform.
  rewrite Hprofiles.
  destruct (Vectorizer.vocabulary_of (map Profile_str (p :: ps)))
    as [|term terms] eqn:Hterms; [destruct Hvoc|].
  cbn [fst snd vectorizer Vectorizer.idf_ Vectorizer.vocabulary_].
  apply top_profiles_length.
  rewrite Hcos.
  - rewrite Hrows. unfold Vectorizer.count_rows. now rewrite !length_map.
  - rewrite Hrows. reflexivity.
Qed.

End NonEmptyCollection.

Lemma stand_in_shapes : shapes_kept StandIn.library.
Proof.
  split.
  - intros idf counts. apply length_map.
  - intros q m Hq. destruct q as [|row [|row' q]]; try discriminate.
    simpl. now rewrite app_nil_r, length_map.
Qed.

(** X17. Over a collection of [Profile] objects that is not empty, with a
    numeric library that keeps the shapes and a stop-word table without
    "profile", a search returns normally: [min top_n n] records of the
    collection for a [top_n] that is not negative, [n + top_n] of them
    (none if that is negative) otherwise. *)
Theorem search_on_profiles {F : Float64} {L : Sklearn F} {E : Endpoint}
    (db : Database) (query : string) (top_n : Z) (w : world) :
  shapes_kept L ->
  existsb (String.eqb "profile") english_stop_words = false ->
  get_profiles db <> [] ->
  exists ranked,
    fst (search db query top_n w) = Ok ranked
    /\ List.length ranked
       = (if (top_n <? 0)%Z
          then List.length (get_profiles db) - Z.to_nat (- top_n)
          else Nat.min (Z.to_nat top_n) (List.length (get_profiles db)))
    /\ forall p, In p ranked -> In p (get_profiles db).
Proof.
  intros Hshapes Hstop Hdb. rewrite search_result.
  now apply tf_idf_rank_on_profiles.
Qed.

Lemma search_on_profiles_witness :
  let db := mkDatabase [Fixture.ada; Fixture.alan; Fixture.grace] in
  let w : @world binary64 := mkWorld 0 None in
  shapes_kept StandIn.library
  /\ existsb (String.eqb "profile") (@english_stop_words _ StandIn.library) = false
  /\ get_profiles db <> []
  /\ exists ranked,
       fst (@search binary64 StandIn.library Fixture.no_choices db
              "profile 0x7f378baba210" 2 w) = Ok ranked
       /\ List.length ranked = 2
       /\ forall p, In p ranked -> In p (get_profiles db).
Proof.
  intros db w.
  assert (Hdb : get_profiles db <> []) by discriminate.
  split; [exact stand_in_shapes|]. split; [reflexivity|]. split; [exact Hdb|].
  exact (@search_on_profiles binary64 StandIn.library Fixture.no_choices db
           "profile 0x7f378baba210" 2 w stand_in_shapes eq_refl Hdb).
Defined.
